(** * ibkr-mcp: the bridge between the gateway callbacks and its consumers

    A shallow embedding of [src/ibkr_mcp/ibkr/types.py],
    [src/ibkr_mcp/ibkr/client.py] and [src/ibkr_mcp/server.py].

    Python objects that the code mutates in place are threaded as explicit
    state; a method that can raise returns a [result] holding the state at the
    point where the exception left it.  What the code takes from the external
    protocol library ([ibapi]) or from the interpreter (the builtin [hash]) is
    an interface whose members are parameters of the definitions. *)

From Stdlib Require Import ZArith List Bool Floats.
From stdpp Require Import gmap strings list pretty.

Set Warnings "-inexact-float".
Set Default Proof Using "Type".

Open Scope Z_scope.

(** ** Values carried by the callbacks *)

(** [decimal.Decimal], by its [as_tuple()] view (finite values only). *)
Record Decimal := { dec_negative : bool; dec_coefficient : N; dec_exponent : Z }.

Definition Decimal_of_int (z : Z) : Decimal :=
  {| dec_negative := z <? 0; dec_coefficient := Z.abs_N z; dec_exponent := 0 |}.

(** [ibapi.contract.Contract]: the fields [serialize_contract] reads that
    identify the instrument.  Only [conId] is used by the bridge. *)
Module Contract.
Record t := {
  conId : Z;
  symbol : string;
  secType : string;
  currency : string;
  exchange : string
}.
End Contract.

(** The interpreter's builtin [hash], on the tuples [(account, conId)] that
    [Position.__hash__] builds. *)
Class Builtins := { hash : string * Z -> Z }.

(** [TickTypeEnum.idx2name] of [ibapi.ticktype]: tick-kind index to name. *)
Class TickTypeEnum := { idx2name : gmap Z string }.

(** ** types.py *)

Module Position.
Record t := {
  account : string;
  contract : Contract.t;
  position : Decimal;
  average_cost : float
}.

Section WithHash.
Context {py : Builtins}.

Definition __hash__ (self : t) : Z :=
  hash (account self, Contract.conId (contract self)).

(** [other] is always a [Position] here: the only caller is the set the
    wrapper keeps them in. *)
Definition __eq__ (self other : t) : bool :=
  __hash__ self =? __hash__ other.
End WithHash.

(** The identity the spec gives a position. *)
Definition key (self : t) : string * Z :=
  (account self, Contract.conId (contract self)).
End Position.

(** ** Exceptions and results *)

Inductive exn :=
| AttributeError (name : string)
| KeyError_int (k : Z).

Inductive result (S : Type) :=
| Returned (s : S)
| Raised (e : exn) (s : S).
Arguments Returned {S} s.
Arguments Raised {S} e s.

Definition state_of {S} (r : result S) : S :=
  match r with Returned s | Raised _ s => s end.

(** ** client.py: MarketData and IBKRWrapper *)

Module MarketData.
Record t := { price : gmap string float; size : gmap string Z }.

(** [MarketData()]: both fields from [default_factory=dict]. *)
Definition new : t := {| price := ∅; size := ∅ |}.

Definition set_price (name : string) (v : float) (self : t) : t :=
  {| price := <[name := v]> (price self); size := size self |}.

Definition set_size (name : string) (v : Z) (self : t) : t :=
  {| price := price self; size := <[name := v]> (size self) |}.
End MarketData.

(** A Python [set] of positions.  Membership goes through [__hash__] and
    [__eq__]; [add] leaves the set as it is when an equal element is present. *)
Section PySet.
Context {py : Builtins}.

Definition set_contains (s : list Position.t) (x : Position.t) : bool :=
  existsb (fun y => Position.__eq__ y x) s.

Definition set_add (x : Position.t) (s : list Position.t) : list Position.t :=
  if set_contains s x then s else s ++ [x].
End PySet.

Module IBKRWrapper.
Record t := {
  position_event : bool;                       (* the flag of the asyncio.Event *)
  positions : list Position.t;                 (* set[Position] *)
  market_data_request_ids : gmap Z Contract.t; (* dict[int, Contract] *)
  market_data : gmap Z MarketData.t;           (* dict[int, MarketData] *)
  logged : list Z                              (* logger.error records, by request id *)
}.

(** [EWrapper.__init__] assigns nothing; these are all the instance
    attributes. *)
Definition __init__ : t :=
  {| position_event := false; positions := [];
     market_data_request_ids := ∅; market_data := ∅; logged := [] |}.

(** Attribute lookup on the instance, [self.<name>]. *)
Inductive attribute :=
| AttrEvent (flag : bool)
| AttrPositions (s : list Position.t)
| AttrRequestIds (m : gmap Z Contract.t)
| AttrMarketData (m : gmap Z MarketData.t).

Definition getattr (self : t) (name : string) : option attribute :=
  if String.eqb name "position_event" then Some (AttrEvent (position_event self))
  else if String.eqb name "positions" then Some (AttrPositions (positions self))
  else if String.eqb name "market_data_request_ids"
       then Some (AttrRequestIds (market_data_request_ids self))
  else if String.eqb name "market_data" then Some (AttrMarketData (market_data self))
  else None.

Definition set_market_data (m : gmap Z MarketData.t) (self : t) : t :=
  {| position_event := position_event self; positions := positions self;
     market_data_request_ids := market_data_request_ids self;
     market_data := m; logged := logged self |}.

Definition set_market_data_request_ids (m : gmap Z Contract.t) (self : t) : t :=
  {| position_event := position_event self; positions := positions self;
     market_data_request_ids := m;
     market_data := market_data self; logged := logged self |}.

Definition set_positions (s : list Position.t) (self : t) : t :=
  {| position_event := position_event self; positions := s;
     market_data_request_ids := market_data_request_ids self;
     market_data := market_data self; logged := logged self |}.

Definition set_position_event (b : bool) (self : t) : t :=
  {| position_event := b; positions := positions self;
     market_data_request_ids := market_data_request_ids self;
     market_data := market_data self; logged := logged self |}.

Definition logger_error (reqId : Z) (self : t) : t :=
  {| position_event := position_event self; positions := positions self;
     market_data_request_ids := market_data_request_ids self;
     market_data := market_data self; logged := logged self ++ [reqId] |}.

Definition initiate_market_data_request
    (self : t) (request_id : Z) (contract : Contract.t) : t :=
  let self := set_market_data_request_ids
                (<[request_id := contract]> (market_data_request_ids self)) self in
  set_market_data (<[Contract.conId contract := MarketData.new]> (market_data self)) self.

Section Ticks.
Context {names : TickTypeEnum}.

(** The store a resolved tick writes to:
    [self.market_data[contract.conId].<field>[idx2name[tickType]] = v]. *)
Definition store_tick (self : t) (contract : Contract.t) (tickType : Z)
    (write : string -> MarketData.t -> MarketData.t) : result t :=
  match market_data self !! Contract.conId contract with
  | None => Raised (KeyError_int (Contract.conId contract)) self
  | Some md =>
      match idx2name !! tickType with
      | None => Raised (KeyError_int tickType) self
      | Some name =>
          Returned (set_market_data
                      (<[Contract.conId contract := write name md]> (market_data self))
                      self)
      end
  end.

Definition tickPrice (self : t) (reqId : Z) (tickType : Z) (price : float)
    : result t :=
  match getattr self "_market_data_request_ids" with
  | Some (AttrRequestIds ids) =>
      match ids !! reqId with
      | None => Returned (logger_error reqId self)
      | Some contract =>
          store_tick self contract tickType (fun name => MarketData.set_price name price)
      end
  | Some _ => Raised (AttributeError "get") self
  | None => Raised (AttributeError "_market_data_request_ids") self
  end.

Definition tickSize (self : t) (reqId : Z) (tickType : Z) (size : Z)
    : result t :=
  match getattr self "_market_data_request_ids" with
  | Some (AttrRequestIds ids) =>
      match ids !! reqId with
      | None => Returned (logger_error reqId self)
      | Some contract =>
          store_tick self contract tickType (fun name => MarketData.set_size name size)
      end
  | Some _ => Raised (AttributeError "get") self
  | None => Raised (AttributeError "_market_data_request_ids") self
  end.

(** A tick callback as the pump delivers it: an exception ends the callback
    and leaves the wrapper as it was at that point. *)
Inductive tick :=
| TickPrice (reqId tickType : Z) (price : float)
| TickSize (reqId tickType size : Z).

Definition deliver_tick (self : t) (tk : tick) : t :=
  match tk with
  | TickPrice r k p => state_of (tickPrice self r k p)
  | TickSize r k s => state_of (tickSize self r k s)
  end.

Definition deliver_ticks (self : t) (ticks : list tick) : t :=
  fold_left deliver_tick ticks self.
End Ticks.

Section Positions.
Context {py : Builtins}.

Definition position (self : t) (account : string) (contract : Contract.t)
    (position : Decimal) (avgCost : float) : t :=
  set_positions
    (set_add {| Position.account := account; Position.contract := contract;
                Position.position := position; Position.average_cost := avgCost |}
             (positions self))
    self.

Definition positionEnd (self : t) : t := set_position_event true self.

(** The position callbacks the pump thread can run while the consumer's
    coroutine is suspended. *)
Inductive callback :=
| OnPosition (account : string) (contract : Contract.t)
             (position : Decimal) (avgCost : float)
| OnPositionEnd.

Definition deliver (self : t) (cb : callback) : t :=
  match cb with
  | OnPosition a c p avg => position self a c p avg
  | OnPositionEnd => positionEnd self
  end.

Definition deliver_all (self : t) (cbs : list callback) : t :=
  fold_left deliver cbs self.

(** What the pump thread delivers during each suspension of
    [wait_for_positions]: during the sleep of iteration [n], and during
    the final [wait()] (all it will ever deliver from then on); and whether
    anything wakes the event loop after that.  [asyncio.Event] is not
    thread-safe: [set()] called on the pump thread sets the flag and marks the
    waiter done, but schedules its wake-up without waking the loop, so the
    waiter resumes only when something else makes the loop run.  A sleep ends
    on the loop's own timer, and the check after it reads the flag. *)
Record pump := {
  during_sleep : nat -> list callback;
  during_wait : list callback;
  loop_woken : bool
}.

(** What the coroutine does, in order. *)
Inductive action :=
| IsSet (observed : bool)   (* self.position_event.is_set() *)
| Sleep (seconds : float)   (* await asyncio.sleep(n / 10) *)
| Wait                      (* await self.position_event.wait() *)
| Clear.                    (* self.position_event.clear() *)

(** [n / 10] on a Python int: true division, a float. *)
Definition tenth (n : nat) : float :=
  PrimFloat.div (PrimFloat.of_uint63 (Uint63.of_Z (Z.of_nat n))) 10%float.

(** [for n in range(10): if is_set(): break; await sleep(n / 10)],
    over the values of [n] still to come. *)
Fixpoint poll (ns : list nat) (env : pump) (self : t) : t * list action :=
  match ns with
  | [] => (self, [])
  | n :: ns' =>
      if position_event self then (self, [IsSet true])
      else
        let '(s, tr) := poll ns' env (deliver_all self (during_sleep env n)) in
        (s, IsSet false :: Sleep (tenth n) :: tr)
  end.

Inductive awaited :=
| Resumed (self : t) (value : list Position.t) (trace : list action)
| Blocked (self : t) (trace : list action).  (* wait() never wakes up *)

Definition wait_for_positions (env : pump) (self : t) : awaited :=
  let '(s, tr) := poll (seq 0 10) env self in
  if position_event s
  then (* wait() finds the flag set and returns at once *)
    Resumed (set_position_event false s) (positions s) (tr ++ [Wait; Clear])
  else
    let s := deliver_all s (during_wait env) in
    if position_event s && loop_woken env
    then Resumed (set_position_event false s) (positions s) (tr ++ [Wait; Clear])
    else Blocked s (tr ++ [Wait]).
End Positions.
End IBKRWrapper.

(** ** The external protocol-client library, as [IBKRClient] uses it *)

Module ibapi.
Class EClient := {
  base : Type;                              (* the base class's own state *)
  isConnected : base -> bool;
  connect : string -> Z -> Z -> base -> base;
  disconnect : base -> base;
  MAX_MSG_LEN : nat;                        (* ibapi.common *)
  NO_VALID_ID : Z;
  BAD_LENGTH_code : Z;                      (* ibapi.errors.BAD_LENGTH *)
  BAD_LENGTH_msg : string;
  read_fields : string -> list string;      (* ibapi.comm *)
  (* the decoder: runs the wrapper callbacks a message stands for *)
  interpret : list string -> IBKRWrapper.t -> result IBKRWrapper.t
}.
End ibapi.

(** ** client.py: IBKRClient *)

Module IBKRClient.
(** Calls that leave the object, oldest first. *)
Inductive effect :=
| Connect (host : string) (port client_id : Z)   (* super().connect(...) *)
| ThreadStart                                    (* Thread(target=self.run).start() *)
| TimeSleep (seconds : float)
| QueueGet (timeout : float) (got : option string)
| WrapperError (reqId errorCode : Z) (errorString : string)
| Interpret (fields : list string)
| Disconnect                                     (* self.disconnect() *)
| ReqPositions
| ReqMarketDataType (marketDataType : Z)
| ReqMktData (reqId : Z) (contract : Contract.t) (genericTickList : string)
             (snapshot regulatorySnapshot : bool).

Definition is_ThreadStart (e : effect) : bool :=
  match e with ThreadStart => true | _ => false end.
Definition is_Connect (e : effect) : bool :=
  match e with Connect _ _ _ => true | _ => false end.
Definition is_Disconnect (e : effect) : bool :=
  match e with Disconnect => true | _ => false end.
Definition is_Interpret (e : effect) : bool :=
  match e with Interpret _ => true | _ => false end.

Section WithLibrary.
Context {lib : ibapi.EClient}.

Record t := {
  super : ibapi.base;
  _wrapper : IBKRWrapper.t;
  msg_queue : list string;   (* queue.Queue, filled by the reader thread *)
  effects : list effect
}.

Definition __init__ (base : ibapi.base) : t :=
  {| super := base; _wrapper := IBKRWrapper.__init__; msg_queue := []; effects := [] |}.

Definition set_super (b : ibapi.base) (self : t) : t :=
  {| super := b; _wrapper := _wrapper self;
     msg_queue := msg_queue self; effects := effects self |}.
Definition set_wrapper (w : IBKRWrapper.t) (self : t) : t :=
  {| super := super self; _wrapper := w;
     msg_queue := msg_queue self; effects := effects self |}.
Definition set_msg_queue (q : list string) (self : t) : t :=
  {| super := super self; _wrapper := _wrapper self;
     msg_queue := q; effects := effects self |}.
Definition emit (e : effect) (self : t) : t :=
  {| super := super self; _wrapper := _wrapper self;
     msg_queue := msg_queue self; effects := effects self ++ [e] |}.

Definition pump_threads (self : t) : nat :=
  length (List.filter is_ThreadStart (effects self)).
Definition transports_opened (self : t) : nat :=
  length (List.filter is_Connect (effects self)).
Definition cleanups (self : t) : nat :=
  length (List.filter is_Disconnect (effects self)).

Definition connect (self : t) (host : string) (port client_id : Z) : t :=
  let self := emit (Connect host port client_id)
                   (set_super (ibapi.connect host port client_id (super self)) self) in
  let self := emit ThreadStart self in
  emit (TimeSleep 1) self.

Definition is_connected (self : t) : bool := ibapi.isConnected (super self).

Definition disconnect (self : t) : t :=
  emit Disconnect (set_super (ibapi.disconnect (super self)) self).

(** What the reader thread and the socket did since the pump last looked:
    before the loop guard is evaluated, and while [get] is blocked. *)
Record arrival := {
  link : ibapi.base -> ibapi.base;
  inbound : list string;
  inbound_during_get : list string
}.

Definition arrive (a : arrival) (self : t) : t :=
  set_msg_queue (msg_queue self ++ inbound a) (set_super (link a (super self)) self).

(** [self.isConnected() or not self.msg_queue.empty()] *)
Definition loop_guard (self : t) : bool :=
  ibapi.isConnected (super self) || negb (bool_decide (msg_queue self = [])).

Inductive body_outcome :=
| Continue (self : t)
| Break (self : t)
| Raise (e : exn) (self : t).

Definition body_state (o : body_outcome) : t :=
  match o with Continue s | Break s | Raise _ s => s end.

Definition bad_length_text (text : string) : string :=
  ibapi.BAD_LENGTH_msg +:+ ":" +:+ pretty (String.length text) +:+ ":" +:+ text.

(** One pass through the body of the [while]. *)
Definition loop_body (late : list string) (self : t) : body_outcome :=
  match msg_queue self ++ late with
  | [] => Continue (emit (QueueGet 0.2 None) self)        (* queue.Empty: continue *)
  | text :: rest =>
      let self := emit (QueueGet 0.2 (Some text)) (set_msg_queue rest self) in
      if (ibapi.MAX_MSG_LEN <? String.length text)%nat then
        Break (emit (WrapperError ibapi.NO_VALID_ID ibapi.BAD_LENGTH_code
                                  (bad_length_text text)) self)
      else
        let fields := ibapi.read_fields text in
        let self := emit (Interpret fields) self in
        match ibapi.interpret fields (_wrapper self) with
        | Returned w => Continue (set_wrapper w self)
        | Raised e w => Raise e (set_wrapper w self)
        end
  end.

Inductive exit := GuardExhausted | LengthBreak.

Inductive run_outcome :=
| Finished (how : exit) (self : t)   (* the loop ended and disconnect() ran *)
| Aborted (e : exn) (self : t)       (* an exception left run() *)
| Looping (self : t).                (* still in the loop when the schedule ends *)

(** [run], against a finite prefix of what the outside does: one
    [arrival] per evaluation of the loop guard. *)
Fixpoint run (env : list arrival) (self : t) : run_outcome :=
  match env with
  | [] => Looping self
  | a :: env' =>
      let self := arrive a self in
      if loop_guard self then
        match loop_body (inbound_during_get a) self with
        | Continue self => run env' self
        | Break self => Finished LengthBreak (disconnect self)
        | Raise e self => Aborted e self
        end
      else Finished GuardExhausted (disconnect self)
  end.

Definition get_positions {py : Builtins} (env : IBKRWrapper.pump) (self : t)
    : t * IBKRWrapper.awaited :=
  let self := emit ReqPositions self in
  (self, IBKRWrapper.wait_for_positions env (_wrapper self)).

(** [req_id] is what [secrets.randbelow(999_999_999)] drew. *)
Definition request_market_data (req_id : Z) (self : t) (contract : Contract.t) : t :=
  let self := set_wrapper
                (IBKRWrapper.initiate_market_data_request (_wrapper self) req_id contract)
                self in
  let self := emit (ReqMarketDataType 4) self in
  emit (ReqMktData req_id contract EmptyString false false) self.

Definition get_market_data (self : t) (contract : Contract.t) : option MarketData.t :=
  IBKRWrapper.market_data (_wrapper self) !! Contract.conId contract.
End WithLibrary.
End IBKRClient.

(** ** server.py *)

Module server.
Section WithLibrary.
Context {lib : ibapi.EClient}.

(** [wrapper_func] of [ensure_ibkr_connection(func)], on the global
    [ibkr_client]; [host], [port] and [client_id] are what the environment
    (or, for the client id, [secrets.randbelow]) supplied. *)
Definition ensure_ibkr_connection {A} (func : IBKRClient.t -> A)
    (host : string) (port client_id : Z) (ibkr_client : IBKRClient.t) : A :=
  let ibkr_client :=
    if negb (IBKRClient.is_connected ibkr_client)
    then IBKRClient.connect ibkr_client host port client_id
    else ibkr_client in
  func ibkr_client.
End WithLibrary.
End server.

(** ** Concrete libraries for the closed examples *)

Module Concrete.
Inductive ConnectionState := Disconnected | Connecting | Connected.

Definition ConnectionState_is_connected (s : ConnectionState) : bool :=
  match s with Connected => true | _ => false end.

(** Modelled from the spec: the transport and decoder of the external
    protocol-client library (section 6), which is not under src/.  The
    transport-level connect opens the transport and moves to [Connecting]
    (section 4.1), disconnect moves to [Disconnected], and only [Connected]
    reports connected; a raw message is parsed into blank-separated fields;
    the decoder is given as [decoder]. *)
Definition library (max_msg_len : nat)
    (decoder : list string -> IBKRWrapper.t -> result IBKRWrapper.t) : ibapi.EClient :=
  {| ibapi.base := ConnectionState;
     ibapi.isConnected := ConnectionState_is_connected;
     ibapi.connect := fun _ _ _ _ => Connecting;
     ibapi.disconnect := fun _ => Disconnected;
     ibapi.MAX_MSG_LEN := max_msg_len;
     ibapi.NO_VALID_ID := -1;
     ibapi.BAD_LENGTH_code := 503;
     ibapi.BAD_LENGTH_msg := "Bad message length";
     ibapi.read_fields := String.words;
     ibapi.interpret := decoder |}.

(** Modelled from the spec: a decoder that knows one message, the batch end
    of a position snapshot, and invokes [positionEnd] for it (section 4.2);
    anything else invokes no callback. *)
Definition decoder (fields : list string) (w : IBKRWrapper.t) : result IBKRWrapper.t :=
  match fields with
  | "positionEnd" :: _ => Returned (IBKRWrapper.positionEnd w)
  | _ => Returned w
  end.

(** Modelled from the spec: the tick-kind names the gateway uses for the
    first tick kinds (glossary: bid, ask, last). *)
Definition tick_names : TickTypeEnum :=
  {| idx2name := list_to_map [(0, "BID_SIZE"); (1, "BID"); (2, "ASK");
                              (3, "ASK_SIZE"); (4, "LAST"); (5, "LAST_SIZE")] |}.

(** A stand-in for the interpreter's [hash] on [(str, int)] tuples. *)
Definition string_code (s : string) : Z :=
  fold_left (fun h a => (h * 31 + Z.of_nat (Ascii.nat_of_ascii a)) mod 2305843009213693951)
            (String.list_ascii_of_string s) 5381.

Definition builtins : Builtins :=
  {| hash := fun k => Z.lxor (string_code (fst k) * 1000003) (snd k)
                      mod 2305843009213693951 |}.

(** A [hash] under which every key collides. *)
Definition colliding : Builtins := {| hash := fun _ => 0 |}.

Definition contract_of (conId : Z) : Contract.t :=
  {| Contract.conId := conId; Contract.symbol := "IBKR"; Contract.secType := "STK";
     Contract.currency := "USD"; Contract.exchange := "SMART" |}.
End Concrete.

(** ** The position set, in the words of the specification *)

Section PositionBookkeeping.
Context {py : Builtins}.

(** The [Position] objects a run of callbacks hands to [positions.add], in
    delivery order. *)
Definition delivered (cbs : list IBKRWrapper.callback) : list Position.t :=
  flat_map (fun cb =>
              match cb with
              | IBKRWrapper.OnPosition a c p avg =>
                  [ {| Position.account := a; Position.contract := c;
                       Position.position := p; Position.average_cost := avg |} ]
              | IBKRWrapper.OnPositionEnd => []
              end) cbs.






End PositionBookkeeping.

(** ** Waiting for positions, in the words of the specification *)

Section AwaitPositions.
Context {py : Builtins}.

(** The wrapper as iteration [n] of the poll finds it, should the poll get
    that far: the pump has delivered what it had during the sleeps before. *)
Definition at_check (env : IBKRWrapper.pump) (self : IBKRWrapper.t) (n : nat)
  : IBKRWrapper.t :=
  fold_left (fun s i => IBKRWrapper.deliver_all s (IBKRWrapper.during_sleep env i))
            (seq 0 n) self.

Definition armed_at (env : IBKRWrapper.pump) (self : IBKRWrapper.t) (n : nat) : bool :=
  IBKRWrapper.position_event (at_check env self n).

(** The first of the iterations 0..9 that observes the signal armed. *)
Definition first_armed (env : IBKRWrapper.pump) (self : IBKRWrapper.t) : option nat :=
  List.find (armed_at env self) (seq 0 10).

(** Iterations [from .. from + count - 1], none of which sees the signal armed:
    each checks, then sleeps [n / 10]. *)
Definition unarmed_iterations (from count : nat) : list IBKRWrapper.action :=
  flat_map (fun n => [IBKRWrapper.IsSet false; IBKRWrapper.Sleep (IBKRWrapper.tenth n)])
           (seq from count).

(** The poll of [awaitPositions] as the specification describes it. *)
Definition awaitPositions_poll (env : IBKRWrapper.pump) (self : IBKRWrapper.t)
  : list IBKRWrapper.action :=
  match first_armed env self with
  | Some k => unarmed_iterations 0 k ++ [IBKRWrapper.IsSet true]
  | None => unarmed_iterations 0 10
  end.

Definition trace_of (r : IBKRWrapper.awaited) : list IBKRWrapper.action :=
  match r with IBKRWrapper.Resumed _ _ tr | IBKRWrapper.Blocked _ tr => tr end.

Definition sleeps (tr : list IBKRWrapper.action) : list float :=
  flat_map (fun a => match a with IBKRWrapper.Sleep d => [d] | _ => [] end) tr.

Definition total_sleep (tr : list IBKRWrapper.action) : float :=
  fold_left PrimFloat.add (sleeps tr) 0%float.

Definition waits (tr : list IBKRWrapper.action) : nat :=
  length (List.filter (fun a => match a with IBKRWrapper.Wait => true | _ => false end) tr).

Definition is_OnPositionEnd (cb : IBKRWrapper.callback) : bool :=
  match cb with IBKRWrapper.OnPositionEnd => true | _ => false end.

(** The pump never delivers a batch end: not during any sleep of the poll,
    and not afterwards. *)
Definition never_arms (env : IBKRWrapper.pump) : bool :=
  forallb (fun n => forallb (fun cb => negb (is_OnPositionEnd cb))
                            (IBKRWrapper.during_sleep env n))
          (seq 0 10)
  && forallb (fun cb => negb (is_OnPositionEnd cb)) (IBKRWrapper.during_wait env).
End AwaitPositions.

(** ** The connection, in the words of the specification *)

Section Idempotence.
Context {lib : ibapi.EClient}.

(** The specification's reading of [connect]: on a client that reports
    connected it opens no transport, starts no pump thread and leaves the
    connection state as it is. *)
Definition connect_is_noop_when_connected : Prop :=
  forall (self : IBKRClient.t) (host : string) (port client_id : Z),
    IBKRClient.is_connected self = true ->
    let after := IBKRClient.connect self host port client_id in
    IBKRClient.pump_threads after = IBKRClient.pump_threads self
    /\ IBKRClient.transports_opened after = IBKRClient.transports_opened self
    /\ IBKRClient.super after = IBKRClient.super self.

Definition no_Disconnect (es : list IBKRClient.effect) : bool :=
  forallb (fun e => negb (IBKRClient.is_Disconnect e)) es.

Definition no_Interpret (es : list IBKRClient.effect) : bool :=
  forallb (fun e => negb (IBKRClient.is_Interpret e)) es.
End Idempotence.

(** ** Concrete runs for the closed examples *)

Module Scenario.
(** The scenario of the specification, with a second account in between. *)
Definition two_deliveries_for_one_key : list IBKRWrapper.callback :=
  [ IBKRWrapper.OnPosition "U123" (Concrete.contract_of 7) (Decimal_of_int 100) 55.2;
    IBKRWrapper.OnPosition "U456" (Concrete.contract_of 9) (Decimal_of_int 5) 10;
    IBKRWrapper.OnPosition "U123" (Concrete.contract_of 7) (Decimal_of_int 150) 56;
    IBKRWrapper.OnPositionEnd ].

(** The batch end arrives while the poll is in its third sleep. *)
Definition batch_end_in_third_sleep : IBKRWrapper.pump :=
  {| IBKRWrapper.during_sleep := fun n => if (n =? 2)%nat then two_deliveries_for_one_key else [];
     IBKRWrapper.during_wait := []; IBKRWrapper.loop_woken := false |}.

(** The pump delivers nothing. *)
Definition idle : IBKRWrapper.pump :=
  {| IBKRWrapper.during_sleep := fun _ => []; IBKRWrapper.during_wait := [];
     IBKRWrapper.loop_woken := false |}.

(** A library whose messages may be 16 characters long. *)
Definition library : ibapi.EClient := Concrete.library 16 Concrete.decoder.

(** A client whose transport is up, with one pump thread, as [connect]
    followed by the handshake leaves it. *)
Definition connected_client : IBKRClient.t (lib := library) :=
  IBKRClient.set_super (lib := library) Concrete.Connected
    (IBKRClient.connect (lib := library)
       (IBKRClient.__init__ (lib := library) Concrete.Disconnected) "localhost" 4001 1).

Definition arrival_of (link : Concrete.ConnectionState -> Concrete.ConnectionState)
    (inbound inbound_during_get : list string) : IBKRClient.arrival (lib := library) :=
  @IBKRClient.Build_arrival library link inbound inbound_during_get.

(** A client whose record for contract 7 holds a bid, as a stored tick would
    leave it. *)
Definition client_with_bid : IBKRClient.t (lib := library) :=
  IBKRClient.set_wrapper (lib := library)
    (IBKRWrapper.set_market_data
       {[ 7 := MarketData.set_price "BID" 101.5 MarketData.new ]}
       (IBKRWrapper.set_market_data_request_ids
          {[ 42 := Concrete.contract_of 7 ]} IBKRWrapper.__init__))
    connected_client.

(** Nothing new from the socket. *)
Definition quiet : IBKRClient.arrival (lib := library) :=
  arrival_of (fun b => b) [] [].

(** The socket delivers an oversized message followed by a batch end. *)
Definition oversized_then_batch_end : IBKRClient.arrival (lib := library) :=
  arrival_of (fun b => b)
    ["a message far longer than sixteen characters"; "positionEnd"] [].

(** The socket delivers a batch end, stays silent through one timeout of the
    pump, and then closes. *)
Definition batch_end_then_close : list (IBKRClient.arrival (lib := library)) :=
  [ arrival_of (fun b => b) ["positionEnd"] [];
    quiet;
    arrival_of (fun _ => Concrete.Disconnected) [] [] ].
End Scenario.

(** ** Further notions used by the properties of the whole bridge *)

Section SetInvariant.
Context {py : Builtins}.

(** The invariant of a Python set: no two elements with the same hash that
    compare equal; for positions, no two elements with the same hash. *)
Definition set_wf (s : list Position.t) : Prop := NoDup (map Position.__hash__ s).




(** The wrapper a call of [wait_for_positions] leaves behind. *)
Definition awaited_state (r : IBKRWrapper.awaited) : IBKRWrapper.t :=
  match r with IBKRWrapper.Blocked s _ | IBKRWrapper.Resumed s _ _ => s end.
End SetInvariant.

(** ** Sequences of market-data operations *)

Section MarketDataOps.
Context {lib : ibapi.EClient} {names : TickTypeEnum} {py : Builtins}.

(** What can happen to a client between two looks at its market data: a
    consumer issues [request_market_data], or the pump delivers a callback. *)
Inductive market_op :=
| Request (req_id : Z) (contract : Contract.t)
| Ticked (tk : IBKRWrapper.tick)
| Delivered (cb : IBKRWrapper.callback).

Definition apply_op (c : IBKRClient.t) (op : market_op) : IBKRClient.t :=
  match op with
  | Request req_id contract => IBKRClient.request_market_data req_id c contract
  | Ticked tk =>
      IBKRClient.set_wrapper (IBKRWrapper.deliver_tick (IBKRClient._wrapper c) tk) c
  | Delivered cb =>
      IBKRClient.set_wrapper (IBKRWrapper.deliver (IBKRClient._wrapper c) cb) c
  end.

Definition apply_ops (c : IBKRClient.t) (ops : list market_op) : IBKRClient.t :=
  fold_left apply_op ops c.

(** Some operation of [ops] is a request for a contract with this [conId]. *)
Definition requested (conId : Z) (ops : list market_op) : bool :=
  existsb (fun op => match op with
                     | Request _ contract => Contract.conId contract =? conId
                     | _ => false
                     end) ops.

(** Every subscription the client has sent is a streaming one whose id is
    registered and whose subject has a record. *)
Definition subscriptions_resolve (c : IBKRClient.t) : Prop :=
  forall r k g sn rs,
    In (IBKRClient.ReqMktData r k g sn rs) (IBKRClient.effects c) ->
    is_Some (IBKRWrapper.market_data_request_ids (IBKRClient._wrapper c) !! r)
    /\ is_Some (IBKRClient.get_market_data c k)
    /\ g = EmptyString /\ sn = false /\ rs = false.
End MarketDataOps.

(** ** Runs of the pump loop *)

Section PumpRuns.
Context {lib : ibapi.EClient}.

(** The outside does nothing between two evaluations of the loop guard. *)
Definition quiet_arrival : IBKRClient.arrival :=
  {| IBKRClient.link := fun b => b; IBKRClient.inbound := [];
     IBKRClient.inbound_during_get := [] |}.

(** [len(text) > MAX_MSG_LEN] is false. *)
Definition fits (text : string) : bool :=
  negb (ibapi.MAX_MSG_LEN <? String.length text)%nat.

(** The decoder applied to messages in turn, up to the first that raises. *)
Fixpoint dispatch (msgs : list string) (w : IBKRWrapper.t) : result IBKRWrapper.t :=
  match msgs with
  | [] => Returned w
  | m :: msgs' =>
      match ibapi.interpret (ibapi.read_fields m) w with
      | Returned w' => dispatch msgs' w'
      | Raised e w' => Raised e w'
      end
  end.

(** The effects of a pass that pulls [m] and hands it to the decoder. *)
Definition pull_and_interpret (m : string) : list IBKRClient.effect :=
  [IBKRClient.QueueGet 0.2 (Some m); IBKRClient.Interpret (ibapi.read_fields m)].

(** The messages pulled from the queue, in order. *)
Definition pulled (es : list IBKRClient.effect) : list string :=
  flat_map (fun e => match e with IBKRClient.QueueGet _ (Some m) => [m] | _ => [] end) es.

(** The field lists handed to the decoder, in order. *)
Definition interpreted (es : list IBKRClient.effect) : list (list string) :=
  flat_map (fun e => match e with IBKRClient.Interpret fields => [fields] | _ => [] end) es.

Definition outcome_state (o : IBKRClient.run_outcome) : IBKRClient.t :=
  match o with
  | IBKRClient.Finished _ s | IBKRClient.Aborted _ s | IBKRClient.Looping s => s
  end.

(** [run] is over: the loop was left, or an exception left [run]. *)
Definition terminated (o : IBKRClient.run_outcome) : bool :=
  match o with
  | IBKRClient.Finished _ _ | IBKRClient.Aborted _ _ => true
  | IBKRClient.Looping _ => false
  end.

(** The specification's reading of the end of [run]: on whichever path [run]
    ends, it has performed the disconnect cleanup exactly once. *)
Definition every_termination_cleans_up_once : Prop :=
  forall (env : list IBKRClient.arrival) (self : IBKRClient.t),
    terminated (IBKRClient.run env self) = true ->
    IBKRClient.cleanups (outcome_state (IBKRClient.run env self))
    = S (IBKRClient.cleanups self).

(** Everything the reader thread offers during a schedule. *)
Definition all_inbound (env : list IBKRClient.arrival) : list string :=
  flat_map (fun a => IBKRClient.inbound a ++ IBKRClient.inbound_during_get a) env.
End PumpRuns.

(** ** server.py: the guarded entry points *)

Section GuardedCalls.
Context {lib : ibapi.EClient} {py : Builtins}.


(** [n] guarded calls in a row, on the one global client. *)
Definition ensure_repeatedly (n : nat) (host : string) (port client_id : Z)
    (ibkr_client : IBKRClient.t) : IBKRClient.t :=
  Nat.iter n (server.ensure_ibkr_connection (fun c => c) host port client_id) ibkr_client.
End GuardedCalls.

(** ** Concrete clients and schedules for the further examples *)

Module Illustration.
(** Modelled from the spec: a transport as in [Concrete.library], except that
    its connect completes the handshake before it returns, so that the client
    reports connected right after (section 4.1, the state [Connected]). *)
Definition synchronous_library (max_msg_len : nat)
    (decoder : list string -> IBKRWrapper.t -> result IBKRWrapper.t) : ibapi.EClient :=
  {| ibapi.base := Concrete.ConnectionState;
     ibapi.isConnected := Concrete.ConnectionState_is_connected;
     ibapi.connect := fun _ _ _ _ => Concrete.Connected;
     ibapi.disconnect := fun _ => Concrete.Disconnected;
     ibapi.MAX_MSG_LEN := max_msg_len;
     ibapi.NO_VALID_ID := -1;
     ibapi.BAD_LENGTH_code := 503;
     ibapi.BAD_LENGTH_msg := "Bad message length";
     ibapi.read_fields := String.words;
     ibapi.interpret := decoder |}.

Definition handshaking : ibapi.EClient := synchronous_library 16 Concrete.decoder.

(** Modelled from the spec: a decoder that, besides the batch end, knows a
    price tick and invokes [tickPrice] for it (section 4.3), here always the
    bid 101.5 for request 42; what the callback raises leaves the decoder. *)
Definition tick_decoder (fields : list string) (w : IBKRWrapper.t) : result IBKRWrapper.t :=
  match fields with
  | "tickPrice" :: _ => IBKRWrapper.tickPrice (names := Concrete.tick_names) w 42 1 101.5
  | _ => Concrete.decoder fields w
  end.

Definition ticking : ibapi.EClient := Concrete.library 16 tick_decoder.

Definition first_position : Position.t :=
  {| Position.account := "U123"; Position.contract := Concrete.contract_of 7;
     Position.position := Decimal_of_int 100; Position.average_cost := 55.2 |}.

(** A connected client after a first request cycle that delivered one
    position and the batch end, and whose consumer has returned. *)
Definition client_after_first_cycle : IBKRClient.t (lib := Scenario.library) :=
  IBKRClient.set_wrapper (lib := Scenario.library)
    (IBKRWrapper.set_position_event false
       (IBKRWrapper.deliver_all (py := Concrete.builtins) IBKRWrapper.__init__
          [IBKRWrapper.OnPosition "U123" (Concrete.contract_of 7) (Decimal_of_int 100) 55.2;
           IBKRWrapper.OnPositionEnd]))
    Scenario.connected_client.

(** The second cycle: the same account and contract, now 150 at 56, and the
    batch end, delivered during the second sleep of the poll. *)
Definition second_cycle : IBKRWrapper.pump :=
  {| IBKRWrapper.during_sleep := fun n =>
       if (n =? 1)%nat
       then [IBKRWrapper.OnPosition "U123" (Concrete.contract_of 7) (Decimal_of_int 150) 56;
             IBKRWrapper.OnPositionEnd]
       else [];
     IBKRWrapper.during_wait := []; IBKRWrapper.loop_woken := false |}.


(** Two requests with a tick in between. *)
Definition two_requests : list market_op :=
  [ Request 42 (Concrete.contract_of 7);
    Ticked (IBKRWrapper.TickPrice 42 1 101.5);
    Request 43 (Concrete.contract_of 9) ].

(** A client whose transport has dropped with messages still queued. *)
Definition client_with_backlog (backlog : list string) : IBKRClient.t (lib := Scenario.library) :=
  IBKRClient.set_msg_queue (lib := Scenario.library) backlog
    (IBKRClient.set_super (lib := Scenario.library) Concrete.Disconnected
       Scenario.connected_client).

(** A connected client of the [ticking] library with messages queued. *)
Definition ticking_client (backlog : list string) : IBKRClient.t (lib := ticking) :=
  IBKRClient.set_msg_queue (lib := ticking) backlog
    (IBKRClient.__init__ (lib := ticking) Concrete.Connected).
End Illustration.

(** * Properties *)

(** ** Market-data ticks *)

Section MarketDataProperties.
Context {names : TickTypeEnum}.

Lemma getattr_underscore_name (self : IBKRWrapper.t) :
  IBKRWrapper.getattr self "_market_data_request_ids" = None.
Proof. reflexivity. Qed.

Lemma tickPrice_AttributeError (self : IBKRWrapper.t) (reqId tickType : Z) (price : float) :
  IBKRWrapper.tickPrice self reqId tickType price
  = Raised (AttributeError "_market_data_request_ids") self.
Proof. unfold IBKRWrapper.tickPrice. now rewrite getattr_underscore_name. Qed.

Lemma tickSize_AttributeError (self : IBKRWrapper.t) (reqId tickType size : Z) :
  IBKRWrapper.tickSize self reqId tickType size
  = Raised (AttributeError "_market_data_request_ids") self.
Proof. unfold IBKRWrapper.tickSize. now rewrite getattr_underscore_name. Qed.

Lemma bid_record_not_new :
  MarketData.new
  <> {| MarketData.price := {["BID" := 101.5%float]}; MarketData.size := ∅ |}.
Proof.
  intros E. apply (f_equal (fun md => MarketData.price md !! "BID")) in E.
  cbn in E. rewrite lookup_empty, lookup_singleton_eq in E. discriminate.
Qed.
End MarketDataProperties.

(** C2.  A tick callback for a request id that was never registered changes no
    store, but it does not return: [tickPrice] and [tickSize] read
    [self._market_data_request_ids], an attribute [__init__] never assigns (it
    assigns [market_data_request_ids]), so the lookup raises [AttributeError]
    before the "not found" branch is reached.  Shown on a fresh wrapper and
    request id 7. *)
Theorem tick_unknown_id_raises :
  let self := IBKRWrapper.__init__ in
  IBKRWrapper.market_data_request_ids self !! 7 = None
  /\ IBKRWrapper.tickPrice (names := Concrete.tick_names) self 7 1 101.5
     = Raised (AttributeError "_market_data_request_ids") self
  /\ IBKRWrapper.tickSize (names := Concrete.tick_names) self 7 0 300
     = Raised (AttributeError "_market_data_request_ids") self.
Proof.
  cbn zeta. split; [reflexivity|].
  split; [apply tickPrice_AttributeError | apply tickSize_AttributeError].
Qed.

Section MarketDataScenarios.
Context {lib : ibapi.EClient} {names : TickTypeEnum}.

(** C3.  After a request registered under id 42, the callback
    [tickPrice(42, BID, 101.5)] raises [AttributeError] (the same misspelt
    attribute as in C2) instead of writing; the subject's record is still
    the empty one, not [{price: {"BID": 101.5}, size: {}}]. *)
Theorem bid_tick_after_request_is_lost
    (client : IBKRClient.t) (subject : Contract.t) (BID : Z) :
  let c1 := IBKRClient.request_market_data 42 client subject in
  let r := IBKRWrapper.tickPrice (IBKRClient._wrapper c1) 42 BID 101.5 in
  IBKRWrapper.market_data_request_ids (IBKRClient._wrapper c1) !! 42 = Some subject
  /\ r = Raised (AttributeError "_market_data_request_ids") (IBKRClient._wrapper c1)
  /\ IBKRClient.get_market_data (IBKRClient.set_wrapper (state_of r) c1) subject
     = Some MarketData.new
  /\ MarketData.new
     <> {| MarketData.price := {["BID" := 101.5%float]}; MarketData.size := ∅ |}.
Proof.
  cbn zeta. rewrite tickPrice_AttributeError. repeat split.
  - cbn. apply lookup_insert_eq.
  - cbn. apply lookup_insert_eq.
  - apply bid_record_not_new.
Qed.

Lemma reset_discards_recorded_bid :
  IBKRClient.get_market_data Scenario.client_with_bid (Concrete.contract_of 7)
  = Some {| MarketData.price := {["BID" := 101.5%float]}; MarketData.size := ∅ |}
  /\ IBKRClient.get_market_data
       (IBKRClient.request_market_data 43 Scenario.client_with_bid (Concrete.contract_of 7))
       (Concrete.contract_of 7)
     = Some MarketData.new.
Proof. split; reflexivity. Qed.

(** C6.  Whatever the subject's record holds, and whatever tick callbacks
    were delivered since the first request, a further request for the same
    subject leaves it with the empty record. *)
Theorem second_request_resets_record
    (client : IBKRClient.t) (subject : Contract.t) (id1 id2 : Z)
    (ticks : list IBKRWrapper.tick) :
  (IBKRClient.get_market_data
     (IBKRClient.request_market_data id2 client subject) subject
   = Some MarketData.new)
  /\ IBKRClient.get_market_data
       (IBKRClient.request_market_data id2
          (let c1 := IBKRClient.request_market_data id1 client subject in
           IBKRClient.set_wrapper
             (IBKRWrapper.deliver_ticks (IBKRClient._wrapper c1) ticks) c1)
          subject)
       subject
     = Some MarketData.new.
Proof. split; cbn; apply lookup_insert_eq. Qed.

(** No method of the wrapper deletes from the request-id map: an id that is
    mapped stays mapped, to the same contract unless a request reuses the id. *)
Lemma request_ids_never_removed {py : Builtins}
    (w : IBKRWrapper.t) (k : Z) (c : Contract.t) :
  IBKRWrapper.market_data_request_ids w !! k = Some c ->
  (forall r c', is_Some (IBKRWrapper.market_data_request_ids
                           (IBKRWrapper.initiate_market_data_request w r c') !! k))
  /\ (forall r c', r <> k ->
        IBKRWrapper.market_data_request_ids
          (IBKRWrapper.initiate_market_data_request w r c') !! k = Some c)
  /\ (forall ticks,
        IBKRWrapper.market_data_request_ids (IBKRWrapper.deliver_ticks w ticks) !! k = Some c)
  /\ (forall cbs,
        IBKRWrapper.market_data_request_ids (IBKRWrapper.deliver_all w cbs) !! k = Some c)
  /\ (forall b,
        IBKRWrapper.market_data_request_ids (IBKRWrapper.set_position_event b w) !! k
        = Some c).
Proof.
  intros Hk. split; [|split; [|split; [|split]]].
  - intros r c'. cbn. destruct (decide (r = k)) as [->|Hne].
    + rewrite lookup_insert_eq. eauto.
    + rewrite lookup_insert_ne by done. eauto.
  - intros r c' Hne. cbn. now rewrite lookup_insert_ne.
  - intros ticks. revert w Hk. unfold IBKRWrapper.deliver_ticks.
    induction ticks as [|tk ticks IH]; intros w Hk; [exact Hk|].
    cbn [fold_left]. apply IH.
    destruct tk; cbn [IBKRWrapper.deliver_tick];
      [rewrite tickPrice_AttributeError | rewrite tickSize_AttributeError]; exact Hk.
  - intros cbs. revert w Hk. unfold IBKRWrapper.deliver_all.
    induction cbs as [|cb cbs IH]; intros w Hk; [exact Hk|].
    cbn [fold_left]. apply IH. destruct cb; exact Hk.
  - intros b. exact Hk.
Qed.

(** C10.  After a second request for the same subject the first id is still
    mapped to it (no method deletes from the map,
    [request_ids_never_removed]); but a tick tagged with the first id raises
    [AttributeError] (the misspelt attribute of C2) and writes nothing. *)
Theorem superseded_id_tick_raises
    (client : IBKRClient.t) (subject : Contract.t) (id1 id2 tickType : Z) (price : float) :
  let c2 := IBKRClient.request_market_data id2
              (IBKRClient.request_market_data id1 client subject) subject in
  let r := IBKRWrapper.tickPrice (IBKRClient._wrapper c2) id1 tickType price in
  IBKRWrapper.market_data_request_ids (IBKRClient._wrapper c2) !! id1 = Some subject
  /\ r = Raised (AttributeError "_market_data_request_ids") (IBKRClient._wrapper c2)
  /\ IBKRClient.get_market_data (IBKRClient.set_wrapper (state_of r) c2) subject
     = Some MarketData.new.
Proof.
  cbn zeta. rewrite tickPrice_AttributeError. repeat split.
  - cbn. destruct (decide (id2 = id1)) as [->|Hne].
    + apply lookup_insert_eq.
    + rewrite lookup_insert_ne by done. apply lookup_insert_eq.
  - cbn. apply lookup_insert_eq.
Qed.
End MarketDataScenarios.

(** ** The position set *)

Section PositionSet.
Context {py : Builtins}.


Lemma position_hash_key (p : Position.t) : Position.__hash__ p = hash (Position.key p).
Proof. reflexivity. Qed.



(** Whatever [hash] is, adding a second element with the key of the one just
    added changes nothing. *)
Lemma set_add_again (x1 x2 : Position.t) (s : list Position.t) :
  Position.key x1 = Position.key x2 -> set_add x2 (set_add x1 s) = set_add x1 s.
Proof.
  intros Hkey. unfold set_add at 1.
  assert (set_contains (set_add x1 s) x2 = true) as ->; [|reflexivity].
  unfold set_add, set_contains. destruct (existsb _ s) eqn:E.
  - apply existsb_exists in E as (y & Hy & Heq). apply existsb_exists.
    exists y. split; [exact Hy|].
    unfold Position.__eq__ in *. now rewrite !position_hash_key, <- Hkey in *.
  - rewrite existsb_app. cbn. unfold Position.__eq__.
    rewrite !position_hash_key, Hkey, Z.eqb_refl. now rewrite orb_true_r.
Qed.

Lemma position_again_is_dropped (w : IBKRWrapper.t) (account : string)
    (contract : Contract.t) (q1 q2 : Decimal) (avg1 avg2 : float) :
  IBKRWrapper.position (IBKRWrapper.position w account contract q1 avg1)
    account contract q2 avg2
  = IBKRWrapper.position w account contract q1 avg1.
Proof.
  unfold IBKRWrapper.position. cbn [IBKRWrapper.positions IBKRWrapper.set_positions].
  now rewrite set_add_again.
Qed.

Lemma positions_deliver_all (w : IBKRWrapper.t) (cbs : list IBKRWrapper.callback) :
  IBKRWrapper.positions (IBKRWrapper.deliver_all w cbs)
  = fold_left (fun s x => set_add x s) (delivered cbs) (IBKRWrapper.positions w).
Proof.
  revert w. induction cbs as [|cb cbs IH]; intros w; [reflexivity|].
  unfold IBKRWrapper.deliver_all in *. cbn [fold_left]. rewrite IH.
  destruct cb; reflexivity.
Qed.

End PositionSet.

Section PositionClaim.
Context {py : Builtins}.


End PositionClaim.


(** Why the keys have to be told apart by their hash: [__eq__] compares
    hashes, so under a colliding [hash] the position of a second account is
    taken for the first and dropped. *)
Lemma colliding_keys_share_an_entry :
  IBKRWrapper.positions
    (IBKRWrapper.deliver_all (py := Concrete.colliding)
       IBKRWrapper.__init__ Scenario.two_deliveries_for_one_key)
  = [ {| Position.account := "U123"; Position.contract := Concrete.contract_of 7;
         Position.position := Decimal_of_int 100; Position.average_cost := 55.2 |} ].
Proof. reflexivity. Qed.


(** ** Waiting for positions *)

Lemma find_first {A} (f : A -> bool) (l : list A) (x : A) :
  List.find f l = Some x ->
  exists pre post, l = pre ++ x :: post /\ (forall y, In y pre -> f y = false) /\ f x = true.
Proof.
  induction l as [|a l IH]; [discriminate|]. cbn. destruct (f a) eqn:Fa.
  - intros [= ->]. exists [], l. repeat split; [intros y []|exact Fa].
  - intros Hfind. destruct (IH Hfind) as (pre & post & -> & Hpre & Hx).
    exists (a :: pre), post. repeat split; [|exact Hx].
    intros y [<-|Hy]; [exact Fa|now apply Hpre].
Qed.

Lemma seq_split_at (pre post : list nat) (k a n : nat) :
  seq a n = pre ++ k :: post -> (a <= k)%nat /\ pre = seq a (k - a).
Proof.
  revert a n. induction pre as [|p pre IH]; intros a n Hseq.
  - destruct n as [|n]; [discriminate|]. cbn in Hseq. injection Hseq as -> _.
    split; [lia|]. now rewrite Nat.sub_diag.
  - destruct n as [|n]; [discriminate|]. cbn in Hseq. injection Hseq as <- Hseq.
    destruct (IH _ _ Hseq) as [Hle ->]. split; [lia|].
    replace (k - a)%nat with (S (k - S a)) by lia. reflexivity.
Qed.

Section AwaitPositionsProperties.
Context {py : Builtins}.

Lemma at_check_S (env : IBKRWrapper.pump) (self : IBKRWrapper.t) (n : nat) :
  at_check env self (S n)
  = IBKRWrapper.deliver_all (at_check env self n) (IBKRWrapper.during_sleep env n).
Proof. unfold at_check. now rewrite seq_S, fold_left_app. Qed.

(** While no check sees the signal armed, the poll goes through its
    iterations one by one. *)
Lemma poll_unarmed (env : IBKRWrapper.pump) (self : IBKRWrapper.t)
    (count from : nat) (rest : list nat) :
  (forall n, (from <= n < from + count)%nat -> armed_at env self n = false) ->
  IBKRWrapper.poll (seq from count ++ rest) env (at_check env self from)
  = let '(s, tr) := IBKRWrapper.poll rest env (at_check env self (from + count)) in
    (s, unarmed_iterations from count ++ tr).
Proof.
  revert from. induction count as [|count IH]; intros from Hquiet.
  - rewrite Nat.add_0_r. cbn. now destruct (IBKRWrapper.poll rest env _).
  - cbn [seq app IBKRWrapper.poll].
    assert (armed_at env self from = false) as Hfrom by (apply Hquiet; lia).
    unfold armed_at in Hfrom. rewrite Hfrom, <- at_check_S.
    rewrite IH by (intros n Hn; apply Hquiet; lia).
    replace (S from + count)%nat with (from + S count)%nat by lia.
    now destruct (IBKRWrapper.poll rest env _).
Qed.

(** The poll of the code is the poll of the specification. *)
Lemma poll_refines (env : IBKRWrapper.pump) (self : IBKRWrapper.t) :
  IBKRWrapper.poll (seq 0 10) env self
  = (at_check env self (default 10%nat (first_armed env self)),
     awaitPositions_poll env self).
Proof.
  unfold awaitPositions_poll. destruct (first_armed env self) as [k|] eqn:Hfirst.
  - unfold first_armed in Hfirst.
    destruct (find_first _ _ _ Hfirst) as (pre & post & Hseq & Hpre & Hk).
    destruct (seq_split_at _ _ _ _ _ Hseq) as [_ Epre].
    rewrite Nat.sub_0_r in Epre. subst pre. rewrite Hseq.
    change self with (at_check env self 0) at 1.
    rewrite poll_unarmed by (intros n Hn; apply Hpre, in_seq; lia).
    cbn [IBKRWrapper.poll plus default]. unfold armed_at in Hk. now rewrite Hk.
  - pose proof (find_none _ _ Hfirst) as Hall.
    rewrite <- (app_nil_r (seq 0 10)). change self with (at_check env self 0) at 1.
    rewrite poll_unarmed by (intros n Hn; apply Hall, in_seq; lia).
    cbn [IBKRWrapper.poll plus default]. now rewrite app_nil_r.
Qed.
End AwaitPositionsProperties.

Section AwaitPositionsClaims.
Context {py : Builtins}.

Lemma waits_app (l1 l2 : list IBKRWrapper.action) : waits (l1 ++ l2) = (waits l1 + waits l2)%nat.
Proof. unfold waits. now rewrite List.filter_app, length_app. Qed.

Lemma sleeps_app (l1 l2 : list IBKRWrapper.action) : sleeps (l1 ++ l2) = sleeps l1 ++ sleeps l2.
Proof. apply flat_map_app. Qed.

Lemma waits_unarmed (from count : nat) : waits (unarmed_iterations from count) = 0%nat.
Proof.
  revert from. induction count as [|count IH]; intros from; [reflexivity|].
  unfold unarmed_iterations in *. cbn [seq flat_map].
  now rewrite waits_app, IH.
Qed.

Lemma sleeps_unarmed (from count : nat) :
  sleeps (unarmed_iterations from count) = map IBKRWrapper.tenth (seq from count).
Proof.
  revert from. induction count as [|count IH]; intros from; [reflexivity|].
  unfold unarmed_iterations in *. cbn [seq flat_map map].
  rewrite sleeps_app, IH. reflexivity.
Qed.

Lemma waits_poll (env : IBKRWrapper.pump) (self : IBKRWrapper.t) :
  waits (awaitPositions_poll env self) = 0%nat.
Proof.
  unfold awaitPositions_poll. destruct (first_armed env self).
  - now rewrite waits_app, waits_unarmed.
  - apply waits_unarmed.
Qed.

Lemma sleeps_poll (env : IBKRWrapper.pump) (self : IBKRWrapper.t) :
  sleeps (awaitPositions_poll env self)
  = map IBKRWrapper.tenth (seq 0 (default 10%nat (first_armed env self))).
Proof.
  unfold awaitPositions_poll. destruct (first_armed env self); cbn [default].
  - now rewrite sleeps_app, sleeps_unarmed, app_nil_r.
  - apply sleeps_unarmed.
Qed.

Lemma first_armed_bound (env : IBKRWrapper.pump) (self : IBKRWrapper.t) :
  (default 10 (first_armed env self) <= 10)%nat.
Proof.
  destruct (first_armed env self) as [k|] eqn:E; cbn; [|lia].
  apply find_some in E as [Hin _]. apply in_seq in Hin. lia.
Qed.

Lemma total_of_tenths (k : nat) :
  (k <= 10)%nat ->
  PrimFloat.leb (fold_left PrimFloat.add (map IBKRWrapper.tenth (seq 0 k)) 0%float) 4.5
  = true.
Proof.
  intros Hk. do 11 (destruct k as [|k]; [vm_compute; reflexivity|]). lia.
Qed.

(** The trace of a call: the poll of the specification, one wait, and the
    clear when the wait wakes up. *)
Lemma wait_for_positions_trace (env : IBKRWrapper.pump) (self : IBKRWrapper.t) :
  exists tail,
    trace_of (IBKRWrapper.wait_for_positions env self)
    = awaitPositions_poll env self ++ IBKRWrapper.Wait :: tail
    /\ (tail = [] \/ tail = [IBKRWrapper.Clear]).
Proof.
  unfold IBKRWrapper.wait_for_positions. rewrite poll_refines.
  destruct (IBKRWrapper.position_event _); [cbn [trace_of]; eauto|].
  destruct (_ && _); cbn [trace_of]; eauto.
Qed.

(** C4.  [wait_for_positions] runs the poll the specification describes:
    iterations n = 0, 1, ..., each checking the signal and, when it is not
    armed, sleeping n/10, up to the first check that sees it armed or through
    all ten; the sleeps are an initial part of 0, 0.1, ..., 0.9 and add up to
    at most 4.5; then it waits on the signal exactly once, whatever the poll
    saw.  Called with the signal armed it checks once and sleeps not at all. *)
Theorem wait_for_positions_poll_then_wait (env : IBKRWrapper.pump) (self : IBKRWrapper.t) :
  let r := IBKRWrapper.wait_for_positions env self in
  (exists tail, trace_of r = awaitPositions_poll env self ++ IBKRWrapper.Wait :: tail
                /\ (tail = [] \/ tail = [IBKRWrapper.Clear]))
  /\ waits (trace_of r) = 1%nat
  /\ sleeps (trace_of r)
     = map IBKRWrapper.tenth (seq 0 (default 10%nat (first_armed env self)))
  /\ map IBKRWrapper.tenth (seq 0 10)
     = [0; 0.1; 0.2; 0.3; 0.4; 0.5; 0.6; 0.7; 0.8; 0.9]%float
  /\ PrimFloat.leb (total_sleep (trace_of r)) 4.5 = true
  /\ IBKRWrapper.wait_for_positions env (IBKRWrapper.positionEnd self)
     = IBKRWrapper.Resumed (IBKRWrapper.set_position_event false self)
         (IBKRWrapper.positions self)
         [IBKRWrapper.IsSet true; IBKRWrapper.Wait; IBKRWrapper.Clear].
Proof.
  intros r. destruct (wait_for_positions_trace env self) as (tail & Htrace & Htail).
  fold r in Htrace.
  assert (sleeps (trace_of r)
          = map IBKRWrapper.tenth (seq 0 (default 10%nat (first_armed env self)))) as Hsleeps.
  { rewrite Htrace, sleeps_app, sleeps_poll.
    destruct Htail as [-> | ->]; cbn; now rewrite app_nil_r. }
  split; [now exists tail|]. split; [|split; [exact Hsleeps|split; [|split]]].
  - rewrite Htrace, waits_app, waits_poll. destruct Htail as [-> | ->]; reflexivity.
  - vm_compute. reflexivity.
  - unfold total_sleep. rewrite Hsleeps. apply total_of_tenths, first_armed_bound.
  - reflexivity.
Qed.

Lemma deliver_all_no_end (s : IBKRWrapper.t) (cbs : list IBKRWrapper.callback) :
  forallb (fun cb => negb (is_OnPositionEnd cb)) cbs = true ->
  IBKRWrapper.position_event (IBKRWrapper.deliver_all s cbs) = IBKRWrapper.position_event s.
Proof.
  revert s. unfold IBKRWrapper.deliver_all.
  induction cbs as [|cb cbs IH]; intros s Hall; [reflexivity|].
  cbn in Hall. apply andb_prop in Hall as [Hcb Hall]. cbn [fold_left].
  rewrite (IH _ Hall). destruct cb; [reflexivity|discriminate].
Qed.

Lemma never_armed_at (env : IBKRWrapper.pump) (s : IBKRWrapper.t) (n : nat) :
  never_arms env = true -> IBKRWrapper.position_event s = false -> (n <= 10)%nat ->
  armed_at env s n = false.
Proof.
  unfold never_arms, armed_at. intros Hnever Hs.
  apply andb_prop in Hnever as [Hsleep _]. rewrite forallb_forall in Hsleep.
  induction n as [|n IH]; intros Hn; [exact Hs|].
  rewrite at_check_S, deliver_all_no_end; [apply IH; lia|].
  apply Hsleep, in_seq. lia.
Qed.

Lemma never_first_armed (env : IBKRWrapper.pump) (s : IBKRWrapper.t) :
  never_arms env = true -> IBKRWrapper.position_event s = false ->
  first_armed env s = None.
Proof.
  intros Hnever Hs. destruct (first_armed env s) as [k|] eqn:E; [|reflexivity].
  apply find_some in E as [Hin Hk]. apply in_seq in Hin.
  rewrite never_armed_at in Hk by (auto; lia). discriminate.
Qed.

(** C5.  A call that returns has cleared the signal as its last step, and the
    wrapper it leaves has the signal disarmed; a further call on that wrapper,
    while the pump delivers no batch end, goes through all ten iterations of
    the poll and then stays blocked in the wait. *)
Theorem wait_clears_signal_then_blocks
    (env1 : IBKRWrapper.pump) (self s : IBKRWrapper.t)
    (value : list Position.t) (tr : list IBKRWrapper.action) :
  IBKRWrapper.wait_for_positions env1 self = IBKRWrapper.Resumed s value tr ->
  IBKRWrapper.position_event s = false
  /\ (exists tr', tr = tr' ++ [IBKRWrapper.Clear])
  /\ forall env2 : IBKRWrapper.pump,
       never_arms env2 = true ->
       IBKRWrapper.wait_for_positions env2 s
       = IBKRWrapper.Blocked
           (IBKRWrapper.deliver_all (at_check env2 s 10) (IBKRWrapper.during_wait env2))
           (unarmed_iterations 0 10 ++ [IBKRWrapper.Wait]).
Proof.
  intros Hret. unfold IBKRWrapper.wait_for_positions in Hret.
  destruct (IBKRWrapper.poll (seq 0 10) env1 self) as [s1 tr1].
  assert (exists s2, s = IBKRWrapper.set_position_event false s2
                     /\ tr = tr1 ++ [IBKRWrapper.Wait; IBKRWrapper.Clear])
    as (s2 & -> & ->).
  { destruct (IBKRWrapper.position_event s1); [injection Hret as <- _ <-; eauto|].
    destruct (_ && _); [injection Hret as <- _ <-; eauto|discriminate]. }
  assert (IBKRWrapper.position_event (IBKRWrapper.set_position_event false s2) = false)
    as Hclear by reflexivity.
  split; [exact Hclear|]. split.
  - exists (tr1 ++ [IBKRWrapper.Wait]). now rewrite <- app_assoc.
  - intros env2 Hnever. unfold IBKRWrapper.wait_for_positions.
    rewrite poll_refines. unfold awaitPositions_poll.
    rewrite (never_first_armed env2 _ Hnever Hclear). cbn [default].
    pose proof (never_armed_at env2 _ 10 Hnever Hclear (le_n _)) as H10.
    unfold armed_at in H10. rewrite H10.
    rewrite deliver_all_no_end, H10; [reflexivity|].
    unfold never_arms in Hnever. now apply andb_prop in Hnever as [_ Hwait].
Qed.
End AwaitPositionsClaims.

Lemma wait_clears_signal_then_blocks_witness :
  let s0 := IBKRWrapper.set_position_event false
              (IBKRWrapper.deliver_all (py := Concrete.builtins)
                 IBKRWrapper.__init__ Scenario.two_deliveries_for_one_key) in
  IBKRWrapper.wait_for_positions (py := Concrete.builtins)
    Scenario.batch_end_in_third_sleep IBKRWrapper.__init__
  = IBKRWrapper.Resumed s0 (IBKRWrapper.positions s0)
      [IBKRWrapper.IsSet false; IBKRWrapper.Sleep 0;
       IBKRWrapper.IsSet false; IBKRWrapper.Sleep 0.1;
       IBKRWrapper.IsSet false; IBKRWrapper.Sleep 0.2;
       IBKRWrapper.IsSet true; IBKRWrapper.Wait; IBKRWrapper.Clear]
  /\ never_arms Scenario.idle = true
  /\ IBKRWrapper.position_event s0 = false
  /\ IBKRWrapper.wait_for_positions (py := Concrete.builtins) Scenario.idle s0
     = IBKRWrapper.Blocked s0 (unarmed_iterations 0 10 ++ [IBKRWrapper.Wait]).
Proof.
  cbn zeta.
  match goal with |- ?L = ?R /\ _ => assert (L = R) as Hret by (vm_compute; reflexivity) end.
  split; [exact Hret|]. split; [reflexivity|].
  destruct (wait_clears_signal_then_blocks _ _ _ _ _ Hret) as (Hclear & _ & Hnext).
  split; [exact Hclear|]. apply (Hnext Scenario.idle). reflexivity.
Defined.

(** ** The pump loop *)

Section PumpLoop.
Context {lib : ibapi.EClient}.

Lemma loop_guard_false (self : IBKRClient.t) :
  IBKRClient.loop_guard self = false
  <-> IBKRClient.is_connected self = false /\ IBKRClient.msg_queue self = [].
Proof.
  unfold IBKRClient.loop_guard, IBKRClient.is_connected.
  rewrite orb_false_iff, negb_false_iff, bool_decide_eq_true. reflexivity.
Qed.

Lemma no_Disconnect_app (l1 l2 : list IBKRClient.effect) :
  no_Disconnect (l1 ++ l2) = no_Disconnect l1 && no_Disconnect l2.
Proof. apply forallb_app. Qed.

(** A pass through the body pulls from the queue with the 0.2 timeout first,
    and never disconnects. *)
Lemma loop_body_effects (late : list string) (self : IBKRClient.t) :
  exists got more,
    IBKRClient.effects (IBKRClient.body_state (IBKRClient.loop_body late self))
    = IBKRClient.effects self ++ IBKRClient.QueueGet 0.2 got :: more
    /\ got = head (IBKRClient.msg_queue self ++ late)
    /\ no_Disconnect (IBKRClient.QueueGet 0.2 got :: more) = true.
Proof.
  unfold IBKRClient.loop_body.
  destruct (IBKRClient.msg_queue self ++ late) as [|text rest].
  - exists None, []. now cbn.
  - destruct (ibapi.MAX_MSG_LEN <? String.length text)%nat.
    + eexists (Some text), [_]. cbn. rewrite <- app_assoc. now cbn.
    + destruct (ibapi.interpret _ _); eexists (Some text), [_];
        cbn; rewrite <- app_assoc; now cbn.
Qed.

Lemma cleanups_app_no_Disconnect (self after : IBKRClient.t) (l : list IBKRClient.effect) :
  IBKRClient.effects after = IBKRClient.effects self ++ l -> no_Disconnect l = true ->
  IBKRClient.cleanups after = IBKRClient.cleanups self.
Proof.
  unfold IBKRClient.cleanups. intros -> Hl. rewrite List.filter_app, length_app.
  assert (List.filter IBKRClient.is_Disconnect l = []) as ->; [|cbn; lia].
  unfold no_Disconnect in Hl. induction l as [|e l IH]; [reflexivity|].
  cbn in Hl. apply andb_prop in Hl as [He Hl]. cbn.
  apply negb_true_iff in He. rewrite He. now apply IH.
Qed.

(** C7.  When the message the loop pulls is longer than [MAX_MSG_LEN], [run]
    reports the bad length through [wrapper.error], leaves the loop and
    disconnects: that message is neither parsed nor dispatched, the messages
    queued behind it stay in the queue, the wrapper is untouched, whatever the
    socket does later is not looked at, and (with a transport whose disconnect
    takes effect) the client no longer reports connected. *)
Theorem oversized_message_stops_pump
    (a : IBKRClient.arrival) (later : list IBKRClient.arrival) (self : IBKRClient.t)
    (text : string) (queued : list string) :
  (forall b, ibapi.isConnected (ibapi.disconnect b) = false) ->
  IBKRClient.loop_guard (IBKRClient.arrive a self) = true ->
  IBKRClient.msg_queue (IBKRClient.arrive a self) ++ IBKRClient.inbound_during_get a
  = text :: queued ->
  (ibapi.MAX_MSG_LEN < String.length text)%nat ->
  exists final,
    IBKRClient.run (a :: later) self = IBKRClient.Finished IBKRClient.LengthBreak final
    /\ IBKRClient.effects final
       = IBKRClient.effects self
         ++ [IBKRClient.QueueGet 0.2 (Some text);
             IBKRClient.WrapperError ibapi.NO_VALID_ID ibapi.BAD_LENGTH_code
               (IBKRClient.bad_length_text text);
             IBKRClient.Disconnect]
    /\ IBKRClient.msg_queue final = queued
    /\ IBKRClient._wrapper final = IBKRClient._wrapper self
    /\ IBKRClient.is_connected final = false.
Proof.
  intros Hdisc Hguard Hqueue Hlong. apply Nat.ltb_lt in Hlong.
  eexists. split.
  - cbn [IBKRClient.run]. rewrite Hguard. unfold IBKRClient.loop_body.
    rewrite Hqueue, Hlong. reflexivity.
  - cbn. rewrite <- !app_assoc. repeat split. apply Hdisc.
Qed.

(** What one pass of the body leaves in the effects, by the way it ends. *)
Lemma loop_body_cases (late : list string) (self : IBKRClient.t) :
  match IBKRClient.loop_body late self with
  | IBKRClient.Continue s =>
      exists l, IBKRClient.effects s = IBKRClient.effects self ++ l
                /\ no_Disconnect l = true
  | IBKRClient.Break s =>
      exists text,
        IBKRClient.effects s
        = IBKRClient.effects self
          ++ [IBKRClient.QueueGet 0.2 (Some text);
              IBKRClient.WrapperError ibapi.NO_VALID_ID ibapi.BAD_LENGTH_code
                (IBKRClient.bad_length_text text)]
        /\ fits text = false
  | IBKRClient.Raise e s =>
      exists text,
        IBKRClient.effects s = IBKRClient.effects self ++ pull_and_interpret text
        /\ fits text = true
        /\ ibapi.interpret (ibapi.read_fields text) (IBKRClient._wrapper self)
           = Raised e (IBKRClient._wrapper s)
  end.
Proof.
  unfold IBKRClient.loop_body.
  destruct (IBKRClient.msg_queue self ++ late) as [|text rest].
  - exists [IBKRClient.QueueGet 0.2 None]. now cbn.
  - assert (fits text = negb (ibapi.MAX_MSG_LEN <? String.length text)%nat) as Hfits
      by reflexivity.
    destruct (ibapi.MAX_MSG_LEN <? String.length text)%nat.
    + exists text. split; [|exact Hfits]. cbn. now rewrite <- app_assoc.
    + cbn zeta. cbn [IBKRClient._wrapper IBKRClient.emit IBKRClient.set_msg_queue].
      destruct (ibapi.interpret _ _) as [w|e w] eqn:Hint.
      * exists (pull_and_interpret text). cbn. now rewrite <- app_assoc.
      * exists text. split; [|split; [exact Hfits|exact Hint]].
        cbn. now rewrite <- app_assoc.
Qed.

(** Every way [run] can end, with what it has done by then. *)
Lemma run_cases (env : list IBKRClient.arrival) (self : IBKRClient.t) :
  match IBKRClient.run env self with
  | IBKRClient.Finished how final =>
      exists before in_loop,
        final = IBKRClient.disconnect before
        /\ IBKRClient.effects before = IBKRClient.effects self ++ in_loop
        /\ no_Disconnect in_loop = true
        /\ match how with
           | IBKRClient.GuardExhausted =>
               IBKRClient.is_connected before = false /\ IBKRClient.msg_queue before = []
           | IBKRClient.LengthBreak =>
               exists earlier text,
                 in_loop
                 = earlier
                   ++ [IBKRClient.QueueGet 0.2 (Some text);
                       IBKRClient.WrapperError ibapi.NO_VALID_ID ibapi.BAD_LENGTH_code
                         (IBKRClient.bad_length_text text)]
                 /\ fits text = false
           end
  | IBKRClient.Aborted e final =>
      exists earlier text w,
        IBKRClient.effects final
        = IBKRClient.effects self ++ earlier ++ pull_and_interpret text
        /\ no_Disconnect (earlier ++ pull_and_interpret text) = true
        /\ fits text = true
        /\ ibapi.interpret (ibapi.read_fields text) w = Raised e (IBKRClient._wrapper final)
  | IBKRClient.Looping final =>
      exists in_loop,
        IBKRClient.effects final = IBKRClient.effects self ++ in_loop
        /\ no_Disconnect in_loop = true
  end.
Proof.
  revert self. induction env as [|a env IH]; intros self.
  - exists []. cbn. now rewrite app_nil_r.
  - cbn [IBKRClient.run].
    destruct (IBKRClient.loop_guard (IBKRClient.arrive a self)) eqn:G.
    + pose proof (loop_body_cases (IBKRClient.inbound_during_get a) (IBKRClient.arrive a self))
        as Hbody.
      destruct (IBKRClient.loop_body _ _) as [s|s|e s].
      * destruct Hbody as (l & Hs & Hl). cbn [IBKRClient.arrive IBKRClient.effects
          IBKRClient.set_msg_queue IBKRClient.set_super] in Hs.
        specialize (IH s). destruct (IBKRClient.run env s) as [how final|e final|final].
        -- destruct IH as (before & l' & -> & Hb & Hl' & Hhow).
           exists before, (l ++ l'). split; [reflexivity|].
           split; [now rewrite Hb, Hs, <- app_assoc|].
           split; [now rewrite no_Disconnect_app, Hl, Hl'|].
           destruct how; [exact Hhow|].
           destruct Hhow as (earlier & text & -> & Hfit).
           exists (l ++ earlier), text. now rewrite <- app_assoc.
        -- destruct IH as (earlier & text & w & Hf & Hno & Hfit & Hint).
           exists (l ++ earlier), text, w.
           split; [now rewrite Hf, Hs, <- !app_assoc|].
           split; [|now split].
           rewrite <- app_assoc, no_Disconnect_app, Hl. exact Hno.
        -- destruct IH as (l' & Hf & Hl'). exists (l ++ l').
           split; [now rewrite Hf, Hs, <- app_assoc|].
           now rewrite no_Disconnect_app, Hl, Hl'.
      * destruct Hbody as (text & Hs & Hfit). eexists s, _.
        split; [reflexivity|]. split; [exact Hs|]. split; [reflexivity|].
        now exists [], text.
      * destruct Hbody as (text & Hs & Hfit & Hint).
        eexists [], text, _. cbn [app]. split; [exact Hs|]. split; [reflexivity|].
        split; [exact Hfit|exact Hint].
    + apply loop_guard_false in G. exists (IBKRClient.arrive a self), [].
      split; [reflexivity|]. split; [cbn; now rewrite app_nil_r|]. now split.
Qed.

(** C8, amended.  The loop is left through its guard exactly when the client
    reports disconnected and the queue is empty; while either fails, the pass
    pulls from the queue with the 0.2 timeout and the loop is not left through
    the guard.  The disconnect cleanup is tied to leaving the loop, not to the
    end of [run]: a run that leaves the loop, through the guard or through the
    break on an oversized message, has disconnected exactly once, as its last
    step; a run ended by an exception of the decoder has dispatched a message
    that fits as its last step and has not disconnected at all; and a run still
    in the loop has not disconnected either. *)
Theorem pump_exits_when_disconnected_and_drained :
  (forall self,
     IBKRClient.loop_guard self = false
     <-> IBKRClient.is_connected self = false /\ IBKRClient.msg_queue self = [])
  /\ (forall a later self,
        IBKRClient.loop_guard (IBKRClient.arrive a self) = false ->
        IBKRClient.run (a :: later) self
        = IBKRClient.Finished IBKRClient.GuardExhausted
            (IBKRClient.disconnect (IBKRClient.arrive a self)))
  /\ (forall a later self,
        IBKRClient.loop_guard (IBKRClient.arrive a self) = true ->
        let pass := IBKRClient.loop_body (IBKRClient.inbound_during_get a)
                      (IBKRClient.arrive a self) in
        (exists got more,
           IBKRClient.effects (IBKRClient.body_state pass)
           = IBKRClient.effects self ++ IBKRClient.QueueGet 0.2 got :: more)
        /\ IBKRClient.run (a :: later) self
           = match pass with
             | IBKRClient.Continue s => IBKRClient.run later s
             | IBKRClient.Break s =>
                 IBKRClient.Finished IBKRClient.LengthBreak (IBKRClient.disconnect s)
             | IBKRClient.Raise e s => IBKRClient.Aborted e s
             end)
  /\ (forall env self,
        match IBKRClient.run env self with
        | IBKRClient.Finished how final =>
            (exists in_loop,
               IBKRClient.effects final
               = IBKRClient.effects self ++ in_loop ++ [IBKRClient.Disconnect]
               /\ no_Disconnect in_loop = true
               /\ (how = IBKRClient.LengthBreak ->
                   exists earlier text,
                     in_loop
                     = earlier
                       ++ [IBKRClient.QueueGet 0.2 (Some text);
                           IBKRClient.WrapperError ibapi.NO_VALID_ID ibapi.BAD_LENGTH_code
                             (IBKRClient.bad_length_text text)]
                     /\ fits text = false))
            /\ IBKRClient.cleanups final = S (IBKRClient.cleanups self)
            /\ (how = IBKRClient.GuardExhausted ->
                exists before, final = IBKRClient.disconnect before
                  /\ IBKRClient.is_connected before = false
                  /\ IBKRClient.msg_queue before = [])
        | IBKRClient.Aborted e final =>
            (exists earlier text w,
               IBKRClient.effects final
               = IBKRClient.effects self ++ earlier ++ pull_and_interpret text
               /\ no_Disconnect earlier = true
               /\ fits text = true
               /\ ibapi.interpret (ibapi.read_fields text) w
                  = Raised e (IBKRClient._wrapper final))
            /\ IBKRClient.cleanups final = IBKRClient.cleanups self
        | IBKRClient.Looping final =>
            IBKRClient.cleanups final = IBKRClient.cleanups self
        end).
Proof.
  split; [exact loop_guard_false|]. split; [|split].
  - intros a later self G. cbn [IBKRClient.run]. now rewrite G.
  - intros a later self G pass. split.
    + destruct (loop_body_effects (IBKRClient.inbound_during_get a) (IBKRClient.arrive a self))
        as (got & more & Heff & _). now exists got, more.
    + cbn [IBKRClient.run]. now rewrite G.
  - intros env self. pose proof (run_cases env self) as Hrun.
    destruct (IBKRClient.run env self) as [how final|e final|final].
    + destruct Hrun as (before & l & -> & Hb & Hl & Hhow). split; [|split].
      * exists l. split; [cbn; now rewrite Hb, app_assoc|]. split; [exact Hl|].
        intros ->. exact Hhow.
      * unfold IBKRClient.cleanups at 1. cbn. rewrite List.filter_app, length_app. cbn.
        fold (IBKRClient.cleanups before).
        rewrite (cleanups_app_no_Disconnect self before l Hb Hl). lia.
      * intros ->. exists before. split; [reflexivity|exact Hhow].
    + destruct Hrun as (earlier & text & w & Hf & Hno & Hfit & Hint). split.
      * exists earlier, text, w. split; [exact Hf|]. split; [|now split].
        rewrite no_Disconnect_app in Hno. now apply andb_prop in Hno as [Hno _].
      * exact (cleanups_app_no_Disconnect self final _ Hf Hno).
    + destruct Hrun as (l & Hf & Hl). exact (cleanups_app_no_Disconnect self final _ Hf Hl).
Qed.
End PumpLoop.

Lemma oversized_message_stops_pump_witness :
  exists final,
    IBKRClient.run (lib := Scenario.library)
      [Scenario.oversized_then_batch_end; Scenario.quiet] Scenario.connected_client
    = IBKRClient.Finished IBKRClient.LengthBreak final
    /\ IBKRClient.msg_queue final = ["positionEnd"]
    /\ no_Interpret (IBKRClient.effects final) = true
    /\ IBKRClient.is_connected final = false.
Proof.
  destruct (oversized_message_stops_pump (lib := Scenario.library)
              Scenario.oversized_then_batch_end [Scenario.quiet] Scenario.connected_client
              "a message far longer than sixteen characters" ["positionEnd"])
    as (final & Hrun & Heff & Hqueue & _ & Hconn).
  - intros b. reflexivity.
  - reflexivity.
  - reflexivity.
  - vm_compute. lia.
  - exists final. split; [exact Hrun|]. split; [exact Hqueue|]. split; [|exact Hconn].
    rewrite Heff. reflexivity.
Defined.

Lemma pump_exits_when_disconnected_and_drained_witness :
  IBKRClient.run (lib := Scenario.library) [Scenario.quiet]
    (IBKRClient.__init__ (lib := Scenario.library) Concrete.Disconnected)
  = IBKRClient.Finished IBKRClient.GuardExhausted
      (IBKRClient.disconnect (lib := Scenario.library)
         (IBKRClient.__init__ (lib := Scenario.library) Concrete.Disconnected))
  /\ (exists final,
        IBKRClient.run (lib := Scenario.library)
          Scenario.batch_end_then_close Scenario.connected_client
        = IBKRClient.Finished IBKRClient.GuardExhausted final
        /\ IBKRClient.cleanups final = 1%nat
        /\ IBKRClient.is_connected final = false)
  /\ (exists final,
        IBKRClient.run (lib := Illustration.ticking)
          [quiet_arrival; quiet_arrival]
          (Illustration.ticking_client ["positionEnd"; "tickPrice"])
        = IBKRClient.Aborted (AttributeError "_market_data_request_ids") final
        /\ IBKRClient.cleanups final = 0%nat
        /\ IBKRClient.is_connected final = true).
Proof.
  split; [|split].
  - apply (proj1 (proj2 (pump_exits_when_disconnected_and_drained (lib := Scenario.library)))).
    reflexivity.
  - eexists. split; [vm_compute; reflexivity|].
    match goal with
    | |- IBKRClient.cleanups ?f = _ /\ _ =>
        assert (IBKRClient.run (lib := Scenario.library)
                  Scenario.batch_end_then_close Scenario.connected_client
                = IBKRClient.Finished IBKRClient.GuardExhausted f) as E
          by (vm_compute; reflexivity)
    end.
    pose proof (proj2 (proj2 (proj2
                  (pump_exits_when_disconnected_and_drained (lib := Scenario.library))))
                  Scenario.batch_end_then_close Scenario.connected_client) as H.
    rewrite E in H. destruct H as (_ & Hcount & _).
    split; [exact Hcount|reflexivity].
  - eexists. split; [vm_compute; reflexivity|].
    match goal with
    | |- IBKRClient.cleanups ?f = _ /\ _ =>
        assert (IBKRClient.run (lib := Illustration.ticking)
                  [quiet_arrival; quiet_arrival]
                  (Illustration.ticking_client ["positionEnd"; "tickPrice"])
                = IBKRClient.Aborted (AttributeError "_market_data_request_ids") f) as E
          by (vm_compute; reflexivity)
    end.
    pose proof (proj2 (proj2 (proj2
                  (pump_exits_when_disconnected_and_drained (lib := Illustration.ticking))))
                  [quiet_arrival; quiet_arrival]
                  (Illustration.ticking_client ["positionEnd"; "tickPrice"])) as H.
    rewrite E in H. destruct H as (_ & Hcount).
    split; [exact Hcount|reflexivity].
Defined.

(** C8 as stated fails: with a price tick queued, [run] ends with the
    [AttributeError] of [tickPrice] and has not disconnected. *)
Lemma tick_message_ends_pump_without_cleanup :
  ~ every_termination_cleans_up_once (lib := Illustration.ticking).
Proof.
  intros Hclean.
  specialize (Hclean [quiet_arrival] (Illustration.ticking_client ["tickPrice"]) eq_refl).
  vm_compute in Hclean. discriminate Hclean.
Qed.

(** ** Connecting *)

Section ConnectGuard.
Context {lib : ibapi.EClient}.

Lemma length_filter_snoc {A} (f : A -> bool) (l : list A) (x : A) :
  length (List.filter f (l ++ [x])) = (length (List.filter f l) + if f x then 1 else 0)%nat.
Proof. rewrite List.filter_app, length_app. cbn. now destruct (f x). Qed.

Lemma connect_counts (self : IBKRClient.t) (host : string) (port client_id : Z) :
  IBKRClient.pump_threads (IBKRClient.connect self host port client_id)
  = S (IBKRClient.pump_threads self)
  /\ IBKRClient.transports_opened (IBKRClient.connect self host port client_id)
     = S (IBKRClient.transports_opened self).
Proof.
  unfold IBKRClient.pump_threads, IBKRClient.transports_opened. cbn.
  rewrite !length_filter_snoc. cbn. lia.
Qed.

(** C9, amended.  The idempotence is the caller's: [ensure_ibkr_connection]
    invokes [connect] only when the client does not report connected, so on a
    client that reports connected it runs the wrapped function on the client
    as it is, with no transport opened and no pump thread started.  [connect]
    itself has no guard: each call opens the transport and starts one more
    pump thread. *)
Theorem ensure_connection_skips_connect_when_connected
    {A} (func : IBKRClient.t -> A) (host : string) (port client_id : Z)
    (client : IBKRClient.t) :
  IBKRClient.is_connected client = true ->
  server.ensure_ibkr_connection func host port client_id client = func client
  /\ server.ensure_ibkr_connection (fun c => c) host port client_id client = client
  /\ (forall c : IBKRClient.t,
        IBKRClient.is_connected c = false ->
        server.ensure_ibkr_connection func host port client_id c
        = func (IBKRClient.connect c host port client_id))
  /\ (forall (c : IBKRClient.t) (h : string) (p i : Z),
        IBKRClient.pump_threads (IBKRClient.connect c h p i) = S (IBKRClient.pump_threads c)
        /\ IBKRClient.transports_opened (IBKRClient.connect c h p i)
           = S (IBKRClient.transports_opened c)).
Proof.
  intros Hconn. unfold server.ensure_ibkr_connection. rewrite Hconn. cbn [negb].
  split; [reflexivity|]. split; [reflexivity|]. split.
  - intros c Hc. now rewrite Hc.
  - intros c h p i. apply connect_counts.
Qed.
End ConnectGuard.

Lemma ensure_connection_skips_connect_when_connected_witness :
  IBKRClient.is_connected (lib := Scenario.library) Scenario.connected_client = true
  /\ server.ensure_ibkr_connection (lib := Scenario.library) (fun c => c) "localhost" 4001 7
       Scenario.connected_client
     = Scenario.connected_client
  /\ IBKRClient.pump_threads (lib := Scenario.library) Scenario.connected_client = 1%nat.
Proof.
  split; [reflexivity|]. split; [|reflexivity].
  exact (proj1 (ensure_connection_skips_connect_when_connected (lib := Scenario.library)
                  (fun c => c) "localhost" 4001 7 Scenario.connected_client eq_refl)).
Defined.

(** C9 as stated fails: [connect] on a client that reports connected, with its
    one pump thread running, starts a second pump thread. *)
Lemma connect_on_connected_client_starts_second_pump :
  ~ connect_is_noop_when_connected (lib := Scenario.library).
Proof.
  intros Hnoop.
  destruct (Hnoop Scenario.connected_client "localhost" 4001 1 eq_refl) as [Hthreads _].
  vm_compute in Hthreads. discriminate Hthreads.
Qed.

(** * Further properties of the bridge *)

(** ** Equality of positions and the set of positions *)

Section PositionEquality.
Context {py : Builtins}.

(** [Position.__eq__] is an equivalence that looks at nothing but the hash of
    [(account, conId)]: positions with the same account and contract id are
    equal whatever their quantity, cost and other contract fields, and equal
    positions have equal hashes, as a Python set requires. *)
Lemma position_eq_equivalence :
  (forall p, Position.__eq__ p p = true)
  /\ (forall p q, Position.__eq__ p q = Position.__eq__ q p)
  /\ (forall p q r, Position.__eq__ p q = true -> Position.__eq__ q r = true ->
                    Position.__eq__ p r = true)
  /\ (forall p q, Position.key p = Position.key q -> Position.__eq__ p q = true)
  /\ (forall p q, Position.__eq__ p q = true -> Position.__hash__ p = Position.__hash__ q).
Proof.
  unfold Position.__eq__. repeat split.
  - intros p. apply Z.eqb_refl.
  - intros p q. apply Z.eqb_sym.
  - intros p q r Hpq Hqr. apply Z.eqb_eq in Hpq, Hqr. apply Z.eqb_eq. congruence.
  - intros p q Hkey. rewrite !position_hash_key, Hkey. apply Z.eqb_refl.
  - intros p q Hpq. now apply Z.eqb_eq.
Qed.

Lemma set_contains_false (s : list Position.t) (x : Position.t) :
  set_contains s x = false -> ~ In (Position.__hash__ x) (map Position.__hash__ s).
Proof.
  unfold set_contains. intros Hc Hin. apply in_map_iff in Hin as (y & Hy & Hin).
  assert (existsb (fun y => Position.__eq__ y x) s = true) as Ht.
  { apply existsb_exists. exists y. split; [exact Hin|].
    unfold Position.__eq__. rewrite Hy. apply Z.eqb_refl. }
  rewrite Ht in Hc. discriminate.
Qed.

Lemma set_add_wf (x : Position.t) (s : list Position.t) :
  set_wf s -> set_wf (set_add x s).
Proof.
  unfold set_wf, set_add. intros Hwf. destruct (set_contains s x) eqn:Hc; [exact Hwf|].
  rewrite map_app. cbn [map]. apply NoDup_app. split; [exact Hwf|]. split.
  - intros h Hin Hx. apply list_elem_of_In in Hin. apply list_elem_of_In in Hx.
    destruct Hx as [<-|[]]. now apply (set_contains_false s x Hc).
  - apply NoDup_singleton.
Qed.

Lemma fold_set_add_wf (xs s : list Position.t) :
  set_wf s -> set_wf (fold_left (fun s x => set_add x s) xs s).
Proof.
  revert s. induction xs as [|x xs IH]; intros s Hwf; [exact Hwf|].
  cbn [fold_left]. apply IH. now apply set_add_wf.
Qed.

Lemma set_wf_keys (s : list Position.t) : set_wf s -> NoDup (map Position.key s).
Proof.
  unfold set_wf. intros Hwf. apply (NoDup_fmap_1 hash).
  rewrite <- list_fmap_compose. exact Hwf.
Qed.

Lemma deliver_all_wf (w : IBKRWrapper.t) (cbs : list IBKRWrapper.callback) :
  set_wf (IBKRWrapper.positions w) ->
  set_wf (IBKRWrapper.positions (IBKRWrapper.deliver_all w cbs)).
Proof. intros Hwf. rewrite positions_deliver_all. now apply fold_set_add_wf. Qed.

(** X1.  Whatever [hash] is, the position callbacks keep the set a set: if no
    two entries share a hash before, none do after any run of callbacks, and
    so no two entries carry the same [(account, conId)]. *)
Theorem positions_stay_distinct (w : IBKRWrapper.t) (cbs : list IBKRWrapper.callback) :
  set_wf (IBKRWrapper.positions w) ->
  set_wf (IBKRWrapper.positions (IBKRWrapper.deliver_all w cbs))
  /\ NoDup (map Position.key (IBKRWrapper.positions (IBKRWrapper.deliver_all w cbs))).
Proof.
  intros Hwf. pose proof (deliver_all_wf w cbs Hwf) as Hafter.
  split; [exact Hafter|now apply set_wf_keys].
Qed.
End PositionEquality.

Section PositionsPersist.
Context {py : Builtins}.

Lemma set_add_prefix (x : Position.t) (s : list Position.t) : s `prefix_of` set_add x s.
Proof.
  unfold set_add. destruct (set_contains s x); [reflexivity|]. now apply prefix_app_r.
Qed.

Lemma fold_set_add_prefix (xs s : list Position.t) :
  s `prefix_of` fold_left (fun s x => set_add x s) xs s.
Proof.
  revert s. induction xs as [|x xs IH]; intros s; [reflexivity|].
  cbn [fold_left]. etrans; [apply set_add_prefix|apply IH].
Qed.

Lemma deliver_all_prefix (w : IBKRWrapper.t) (cbs : list IBKRWrapper.callback) :
  IBKRWrapper.positions w `prefix_of` IBKRWrapper.positions (IBKRWrapper.deliver_all w cbs).
Proof. rewrite positions_deliver_all. apply fold_set_add_prefix. Qed.

Lemma poll_prefix (ns : list nat) (env : IBKRWrapper.pump) (w : IBKRWrapper.t) :
  IBKRWrapper.positions w `prefix_of` IBKRWrapper.positions (IBKRWrapper.poll ns env w).1.
Proof.
  revert w. induction ns as [|n ns IH]; intros w; [reflexivity|].
  cbn [IBKRWrapper.poll]. destruct (IBKRWrapper.position_event w); [reflexivity|].
  specialize (IH (IBKRWrapper.deliver_all w (IBKRWrapper.during_sleep env n))).
  destruct (IBKRWrapper.poll ns env _) as [s tr]. cbn [fst] in *.
  etrans; [apply deliver_all_prefix|exact IH].
Qed.

Lemma wait_for_positions_prefix (env : IBKRWrapper.pump) (w : IBKRWrapper.t) :
  IBKRWrapper.positions w
  `prefix_of` IBKRWrapper.positions (awaited_state (IBKRWrapper.wait_for_positions env w))
  /\ (forall s value tr,
        IBKRWrapper.wait_for_positions env w = IBKRWrapper.Resumed s value tr ->
        value = IBKRWrapper.positions s).
Proof.
  unfold IBKRWrapper.wait_for_positions. pose proof (poll_prefix (seq 0 10) env w) as Hpoll.
  destruct (IBKRWrapper.poll (seq 0 10) env w) as [s1 tr1]. cbn [fst] in Hpoll.
  assert (IBKRWrapper.positions w
          `prefix_of` IBKRWrapper.positions
                        (IBKRWrapper.deliver_all s1 (IBKRWrapper.during_wait env)))
    as Hwait by (etrans; [exact Hpoll|apply deliver_all_prefix]).
  destruct (IBKRWrapper.position_event s1).
  - cbn [awaited_state]. split; [exact Hpoll|]. now intros s value tr [= <- <- _].
  - destruct (_ && _); cbn [awaited_state]; (split; [exact Hwait|]).
    + now intros s value tr [= <- <- _].
    + discriminate.
Qed.


(** An element is in the set after adding [xs] only if it was there before or
    nothing there equalled it. *)
Lemma fold_set_add_new (xs s : list Position.t) (q : Position.t) :
  In q (fold_left (fun s x => set_add x s) xs s) -> In q s \/ set_contains s q = false.
Proof.
  revert s. induction xs as [|x xs IH]; intros s Hin; [now left|].
  cbn [fold_left] in Hin. destruct (IH _ Hin) as [Hq|Hq].
  - unfold set_add in Hq. destruct (set_contains s x) eqn:Hc; [now left|].
    apply in_app_or in Hq as [Hq|[<-|[]]]; [now left|now right].
  - right. unfold set_add in Hq. destruct (set_contains s x); [exact Hq|].
    unfold set_contains in *. rewrite existsb_app in Hq. now apply orb_false_elim in Hq.
Qed.

Lemma set_wf_unique (s : list Position.t) (p q : Position.t) :
  set_wf s -> In p s -> In q s -> Position.__eq__ q p = true -> q = p.
Proof.
  unfold set_wf, Position.__eq__. intros Hwf Hp Hq Heq. apply Z.eqb_eq in Heq.
  induction s as [|a s IH]; [destruct Hp|].
  cbn [map] in Hwf. apply NoDup_cons in Hwf as [Ha Hwf].
  destruct Hp as [<-|Hp], Hq as [<-|Hq].
  - reflexivity.
  - exfalso. apply Ha. rewrite <- Heq. apply list_elem_of_In. now apply in_map.
  - exfalso. apply Ha. rewrite Heq. apply list_elem_of_In. now apply in_map.
  - now apply IH.
Qed.
End PositionsPersist.

Section WaitingOutcome.
Context {py : Builtins}.

Lemma poll_wf (ns : list nat) (env : IBKRWrapper.pump) (w : IBKRWrapper.t) :
  set_wf (IBKRWrapper.positions w) ->
  set_wf (IBKRWrapper.positions (IBKRWrapper.poll ns env w).1).
Proof.
  revert w. induction ns as [|n ns IH]; intros w Hwf; [exact Hwf|].
  cbn [IBKRWrapper.poll]. destruct (IBKRWrapper.position_event w); [exact Hwf|].
  specialize (IH (IBKRWrapper.deliver_all w (IBKRWrapper.during_sleep env n))
                 (deliver_all_wf w _ Hwf)).
  now destruct (IBKRWrapper.poll ns env _).
Qed.

Lemma wait_for_positions_wf (env : IBKRWrapper.pump) (w : IBKRWrapper.t) :
  set_wf (IBKRWrapper.positions w) ->
  set_wf (IBKRWrapper.positions (awaited_state (IBKRWrapper.wait_for_positions env w))).
Proof.
  intros Hwf. unfold IBKRWrapper.wait_for_positions.
  pose proof (poll_wf (seq 0 10) env w Hwf) as Hpoll.
  destruct (IBKRWrapper.poll (seq 0 10) env w) as [s1 tr1]. cbn [fst] in Hpoll.
  pose proof (deliver_all_wf s1 (IBKRWrapper.during_wait env) Hpoll) as Hwait.
  destruct (IBKRWrapper.position_event s1); [exact Hpoll|].
  destruct (_ && _); exact Hwait.
Qed.

(** X3.  A request cycle cannot refresh a position.  If the client's set
    already holds an entry [p] when [get_positions] is called, the value the
    call returns still holds [p] and no other entry that equals it: whatever
    the gateway delivers for that account and contract in this cycle is
    dropped. *)
Theorem get_positions_keeps_stale_entry {lib : ibapi.EClient}
    (env : IBKRWrapper.pump) (client after : IBKRClient.t) (p : Position.t)
    (s : IBKRWrapper.t) (value : list Position.t) (tr : list IBKRWrapper.action) :
  set_wf (IBKRWrapper.positions (IBKRClient._wrapper client)) ->
  In p (IBKRWrapper.positions (IBKRClient._wrapper client)) ->
  IBKRClient.get_positions env client = (after, IBKRWrapper.Resumed s value tr) ->
  In p value
  /\ (forall q, In q value -> Position.__eq__ q p = true -> q = p)
  /\ (forall q, In q value -> Position.key q = Position.key p -> q = p).
Proof.
  intros Hwf Hp Hget. unfold IBKRClient.get_positions in Hget.
  injection Hget as _ Hwait. cbn [IBKRClient._wrapper IBKRClient.emit] in Hwait.
  set (w := IBKRClient._wrapper client) in *.
  destruct (wait_for_positions_prefix env w) as (Hprefix & Hvalue).
  pose proof (wait_for_positions_wf env w Hwf) as Hwf'.
  rewrite Hwait in Hprefix, Hwf'. cbn [awaited_state] in Hprefix, Hwf'.
  rewrite (Hvalue _ _ _ Hwait).
  assert (In p (IBKRWrapper.positions s)) as Hin.
  { destruct Hprefix as [k ->]. apply in_or_app. now left. }
  split; [exact Hin|].
  assert (forall q, In q (IBKRWrapper.positions s) -> Position.__eq__ q p = true -> q = p)
    as Huniq by (intros q Hq Heq; now apply (set_wf_unique _ p q Hwf')).
  split; [exact Huniq|].
  intros q Hq Hkey. apply Huniq; [exact Hq|].
  now apply (proj1 (proj2 (proj2 (proj2 position_eq_equivalence)))).
Qed.



Lemma negb_existsb {A} (f : A -> bool) (l : list A) :
  negb (existsb f l) = forallb (fun x => negb (f x)) l.
Proof.
  induction l as [|a l IH]; [reflexivity|]. cbn. now rewrite negb_orb, IH.
Qed.



Lemma deliver_all_frame (w : IBKRWrapper.t) (cbs : list IBKRWrapper.callback) :
  IBKRWrapper.market_data (IBKRWrapper.deliver_all w cbs) = IBKRWrapper.market_data w
  /\ IBKRWrapper.market_data_request_ids (IBKRWrapper.deliver_all w cbs)
     = IBKRWrapper.market_data_request_ids w
  /\ IBKRWrapper.logged (IBKRWrapper.deliver_all w cbs) = IBKRWrapper.logged w.
Proof.
  revert w. unfold IBKRWrapper.deliver_all.
  induction cbs as [|cb cbs IH]; intros w; [easy|].
  cbn [fold_left]. destruct (IH (IBKRWrapper.deliver w cb)) as (-> & -> & ->).
  now destruct cb.
Qed.

Lemma poll_frame (ns : list nat) (env : IBKRWrapper.pump) (w : IBKRWrapper.t) :
  IBKRWrapper.market_data (IBKRWrapper.poll ns env w).1 = IBKRWrapper.market_data w
  /\ IBKRWrapper.market_data_request_ids (IBKRWrapper.poll ns env w).1
     = IBKRWrapper.market_data_request_ids w
  /\ IBKRWrapper.logged (IBKRWrapper.poll ns env w).1 = IBKRWrapper.logged w.
Proof.
  revert w. induction ns as [|n ns IH]; intros w; [easy|].
  cbn [IBKRWrapper.poll]. destruct (IBKRWrapper.position_event w); [easy|].
  specialize (IH (IBKRWrapper.deliver_all w (IBKRWrapper.during_sleep env n))).
  destruct (IBKRWrapper.poll ns env _) as [s tr]. cbn [fst] in *.
  destruct IH as (-> & -> & ->). apply deliver_all_frame.
Qed.

(** X5.  The position side never touches the market-data side: whatever the
    pump delivers of position callbacks, and whether [wait_for_positions]
    returns or blocks, the request-id map, every market-data record and the
    error log are as before. *)
Theorem positions_leave_market_data_alone
    (env : IBKRWrapper.pump) (w : IBKRWrapper.t) (cbs : list IBKRWrapper.callback) :
  let s := awaited_state (IBKRWrapper.wait_for_positions env (IBKRWrapper.deliver_all w cbs)) in
  IBKRWrapper.market_data s = IBKRWrapper.market_data w
  /\ IBKRWrapper.market_data_request_ids s = IBKRWrapper.market_data_request_ids w
  /\ IBKRWrapper.logged s = IBKRWrapper.logged w.
Proof.
  cbn zeta. destruct (deliver_all_frame w cbs) as (<- & <- & <-).
  generalize (IBKRWrapper.deliver_all w cbs) as v. intros v.
  unfold IBKRWrapper.wait_for_positions.
  pose proof (poll_frame (seq 0 10) env v) as Hpoll.
  destruct (IBKRWrapper.poll (seq 0 10) env v) as [s1 tr1]. cbn [fst] in Hpoll.
  destruct Hpoll as (<- & <- & <-).
  pose proof (deliver_all_frame s1 (IBKRWrapper.during_wait env)) as Hwait.
  destruct (IBKRWrapper.position_event s1); [easy|].
  destruct (_ && _); exact Hwait.
Qed.
End WaitingOutcome.

(** ** Market data over sequences of operations *)

Section MarketDataOverTime.
Context {lib : ibapi.EClient} {names : TickTypeEnum} {py : Builtins}.

Lemma deliver_tick_id (w : IBKRWrapper.t) (tk : IBKRWrapper.tick) :
  IBKRWrapper.deliver_tick w tk = w.
Proof.
  destruct tk; cbn [IBKRWrapper.deliver_tick];
    [rewrite tickPrice_AttributeError | rewrite tickSize_AttributeError]; reflexivity.
Qed.

Lemma deliver_frame (w : IBKRWrapper.t) (cb : IBKRWrapper.callback) :
  IBKRWrapper.market_data (IBKRWrapper.deliver w cb) = IBKRWrapper.market_data w
  /\ IBKRWrapper.market_data_request_ids (IBKRWrapper.deliver w cb)
     = IBKRWrapper.market_data_request_ids w.
Proof. now destruct cb. Qed.

Lemma get_market_data_apply_op (c : IBKRClient.t) (op : market_op) (subject : Contract.t) :
  IBKRClient.get_market_data (apply_op c op) subject
  = if requested (Contract.conId subject) [op] then Some MarketData.new
    else IBKRClient.get_market_data c subject.
Proof.
  destruct op as [r k|tk|cb]; cbn [requested existsb orb].
  - unfold IBKRClient.get_market_data. cbn. rewrite orb_false_r.
    destruct (Z.eqb_spec (Contract.conId k) (Contract.conId subject)) as [->|Hne].
    + apply lookup_insert_eq.
    + now rewrite lookup_insert_ne.
  - unfold IBKRClient.get_market_data. cbn. now rewrite deliver_tick_id.
  - unfold IBKRClient.get_market_data. cbn. now rewrite (proj1 (deliver_frame _ cb)).
Qed.

(** X6.  What [get_market_data] hands out.  After any sequence of market-data
    requests, tick callbacks and position callbacks, the lookup for a subject
    is the empty record when one of the requests was for its contract id, and
    otherwise what it was before the sequence; on a client that started fresh
    it is therefore absent or the empty record: requests create and reset
    records, and no tick callback ever gets to write one. *)
Theorem market_data_is_absent_or_empty
    (c : IBKRClient.t) (base : ibapi.base) (ops : list market_op) (subject : Contract.t) :
  IBKRClient.get_market_data (apply_ops c ops) subject
  = (if requested (Contract.conId subject) ops then Some MarketData.new
     else IBKRClient.get_market_data c subject)
  /\ IBKRClient.get_market_data (apply_ops (IBKRClient.__init__ base) ops) subject
     = (if requested (Contract.conId subject) ops then Some MarketData.new else None).
Proof.
  assert (forall c', IBKRClient.get_market_data (apply_ops c' ops) subject
                     = if requested (Contract.conId subject) ops then Some MarketData.new
                       else IBKRClient.get_market_data c' subject) as Hall.
  { unfold apply_ops. induction ops as [|op ops IH]; intros c'; [reflexivity|].
    cbn [fold_left]. rewrite IH, get_market_data_apply_op.
    unfold requested. cbn [existsb]. rewrite orb_false_r.
    now destruct (existsb _ ops), (match op with Request _ _ => _ | _ => _ end). }
  split; [apply Hall|]. rewrite Hall. reflexivity.
Qed.

(** X7.  Requests under different ids do not interfere: they can be registered
    in either order with the same result, each leaves the ids and records of
    other contracts as they were, and none touches the positions, the signal
    or the log.  A request that reuses an id replaces the contract the id maps
    to and leaves the record of the contract it used to map to in place. *)
Theorem requests_compose (w : IBKRWrapper.t) (r1 r2 : Z) (c1 c2 : Contract.t) :
  (r1 <> r2 ->
   IBKRWrapper.initiate_market_data_request
     (IBKRWrapper.initiate_market_data_request w r1 c1) r2 c2
   = IBKRWrapper.initiate_market_data_request
       (IBKRWrapper.initiate_market_data_request w r2 c2) r1 c1)
  /\ (let w' := IBKRWrapper.initiate_market_data_request w r1 c1 in
      (forall r, r <> r1 ->
         IBKRWrapper.market_data_request_ids w' !! r
         = IBKRWrapper.market_data_request_ids w !! r)
      /\ (forall k, k <> Contract.conId c1 ->
            IBKRWrapper.market_data w' !! k = IBKRWrapper.market_data w !! k)
      /\ IBKRWrapper.positions w' = IBKRWrapper.positions w
      /\ IBKRWrapper.position_event w' = IBKRWrapper.position_event w
      /\ IBKRWrapper.logged w' = IBKRWrapper.logged w)
  /\ (let w' := IBKRWrapper.initiate_market_data_request
                  (IBKRWrapper.initiate_market_data_request w r1 c1) r1 c2 in
      IBKRWrapper.market_data_request_ids w' !! r1 = Some c2
      /\ IBKRWrapper.market_data w' !! Contract.conId c1 = Some MarketData.new
      /\ IBKRWrapper.market_data w' !! Contract.conId c2 = Some MarketData.new).
Proof.
  split; [|split].
  - intros Hne. unfold IBKRWrapper.initiate_market_data_request. cbn.
    assert (<[Contract.conId c2 := MarketData.new]>
              (<[Contract.conId c1 := MarketData.new]> (IBKRWrapper.market_data w))
            = <[Contract.conId c1 := MarketData.new]>
                (<[Contract.conId c2 := MarketData.new]> (IBKRWrapper.market_data w))) as ->.
    { destruct (decide (Contract.conId c2 = Contract.conId c1)) as [->|Hk]; [reflexivity|].
      now apply insert_insert_ne. }
    now rewrite (insert_insert_ne _ r2 r1).
  - cbn. repeat split.
    + intros r Hr. now rewrite lookup_insert_ne.
    + intros k Hk. now rewrite lookup_insert_ne.
  - cbn. split; [apply lookup_insert_eq|]. split; [|apply lookup_insert_eq].
    destruct (decide (Contract.conId c2 = Contract.conId c1)) as [->|Hk].
    + apply lookup_insert_eq.
    + rewrite lookup_insert_ne by done. apply lookup_insert_eq.
Qed.

Lemma subscriptions_resolve_apply_op (c : IBKRClient.t) (op : market_op) :
  subscriptions_resolve c -> subscriptions_resolve (apply_op c op).
Proof.
  intros Hc r k g sn rs Hin. destruct op as [r' k'|tk|cb].
  - cbn in Hin. rewrite <- app_assoc in Hin.
    apply in_app_or in Hin as [Hin|[Hin|[Hin|[]]]]; [|discriminate|].
    + destruct (Hc r k g sn rs Hin) as (Hr & Hk & Hrest).
      split; [|split; [|exact Hrest]].
      * cbn. apply lookup_insert_is_Some'. now right.
      * unfold IBKRClient.get_market_data in *. cbn.
        apply lookup_insert_is_Some'. now right.
    + injection Hin as <- <- <- <- <-. split; [|split; [|easy]].
      * cbn. rewrite lookup_insert_eq. eauto.
      * unfold IBKRClient.get_market_data. cbn. rewrite lookup_insert_eq. eauto.
  - cbn in Hin. destruct (Hc r k g sn rs Hin) as (Hr & Hk & Hrest).
    unfold IBKRClient.get_market_data in *. cbn. rewrite deliver_tick_id. easy.
  - cbn in Hin. destruct (Hc r k g sn rs Hin) as (Hr & Hk & Hrest).
    unfold IBKRClient.get_market_data in *. cbn.
    destruct (deliver_frame (IBKRClient._wrapper c) cb) as [-> ->]. easy.
Qed.

(** X8.  Every subscription a client has ever sent is a streaming one (no
    generic ticks, no snapshot), carries a request id that the wrapper still
    resolves, and is for a subject that has a record: ids are registered
    before they are sent and nothing unregisters them. *)
Theorem sent_subscriptions_resolve
    (base : ibapi.base) (ops : list market_op)
    (r : Z) (k : Contract.t) (g : string) (sn rs : bool) :
  let c := apply_ops (IBKRClient.__init__ base) ops in
  In (IBKRClient.ReqMktData r k g sn rs) (IBKRClient.effects c) ->
  is_Some (IBKRWrapper.market_data_request_ids (IBKRClient._wrapper c) !! r)
  /\ is_Some (IBKRClient.get_market_data c k)
  /\ g = EmptyString /\ sn = false /\ rs = false.
Proof.
  cbn zeta. revert r k g sn rs. fold (subscriptions_resolve (apply_ops (IBKRClient.__init__ base) ops)).
  unfold apply_ops.
  assert (forall c, subscriptions_resolve c -> subscriptions_resolve (fold_left apply_op ops c))
    as Hall.
  { induction ops as [|op ops IH]; intros c Hc; [exact Hc|].
    cbn [fold_left]. apply IH. now apply subscriptions_resolve_apply_op. }
  apply Hall. intros r k g sn rs [].
Qed.
End MarketDataOverTime.

(** ** Whole runs of the pump loop *)

Section PumpRunProperties.
Context {lib : ibapi.EClient}.

Lemma arrive_quiet (b : ibapi.base) (w : IBKRWrapper.t) (q : list string)
    (es : list IBKRClient.effect) :
  IBKRClient.arrive quiet_arrival (IBKRClient.Build_t b w q es)
  = IBKRClient.Build_t b w q es.
Proof. unfold IBKRClient.arrive. cbn. now rewrite app_nil_r. Qed.

Lemma loop_guard_nonempty (b : ibapi.base) (w : IBKRWrapper.t) (m : string)
    (q : list string) (es : list IBKRClient.effect) :
  IBKRClient.loop_guard (IBKRClient.Build_t b w (m :: q) es) = true.
Proof.
  unfold IBKRClient.loop_guard. cbn [IBKRClient.msg_queue].
  rewrite bool_decide_eq_false_2 by discriminate. apply orb_true_r.
Qed.

(** With the outside quiet, the loop pulls and dispatches, one pass each, the
    messages at the head of the queue that fit and that the decoder accepts. *)
Lemma run_dispatches_prefix (pre rest : list string) (env : list IBKRClient.arrival)
    (b : ibapi.base) (w w' : IBKRWrapper.t) (es : list IBKRClient.effect) :
  forallb fits pre = true ->
  dispatch pre w = Returned w' ->
  IBKRClient.run (repeat quiet_arrival (length pre) ++ env)
    (IBKRClient.Build_t b w (pre ++ rest) es)
  = IBKRClient.run env
      (IBKRClient.Build_t b w' rest (es ++ flat_map pull_and_interpret pre)).
Proof.
  revert w es. induction pre as [|m pre IH]; intros w es Hfit Hdisp.
  - cbn in *. injection Hdisp as <-. now rewrite app_nil_r.
  - cbn [forallb] in Hfit. apply andb_prop in Hfit as [Hm Hfit].
    cbn [dispatch] in Hdisp.
    destruct (ibapi.interpret (ibapi.read_fields m) w) as [w1|e w1] eqn:Hint; [|discriminate].
    cbn [length repeat app IBKRClient.run]. rewrite arrive_quiet.
    cbn [app]. rewrite loop_guard_nonempty.
    unfold IBKRClient.loop_body. cbn [IBKRClient.inbound_during_get quiet_arrival
                                       IBKRClient.msg_queue].
    rewrite app_nil_r. unfold fits in Hm. apply negb_true_iff in Hm. rewrite Hm.
    cbn. rewrite Hint.
    unfold IBKRClient.set_wrapper, IBKRClient.emit, IBKRClient.set_msg_queue. cbn.
    rewrite (IH w1 _ Hfit Hdisp). cbn [flat_map pull_and_interpret].
    now rewrite <- !app_assoc.
Qed.

Lemma interpreted_pull_and_interpret (q : list string) :
  interpreted (flat_map pull_and_interpret q) = map ibapi.read_fields q.
Proof. induction q as [|m q IH]; [reflexivity|]. cbn. now rewrite <- IH. Qed.

(** X9.  Once the transport is down, the pump drains the queue before it
    leaves: with nothing new arriving, every queued message (none oversized,
    none refused by the decoder) is pulled and handed to the decoder, in queue
    order and once each, and only then the loop ends through its guard and
    disconnects. *)
Theorem pump_drains_queue_after_disconnect (self : IBKRClient.t) (w' : IBKRWrapper.t) :
  IBKRClient.is_connected self = false ->
  forallb fits (IBKRClient.msg_queue self) = true ->
  dispatch (IBKRClient.msg_queue self) (IBKRClient._wrapper self) = Returned w' ->
  exists final,
    IBKRClient.run (repeat quiet_arrival (S (length (IBKRClient.msg_queue self)))) self
    = IBKRClient.Finished IBKRClient.GuardExhausted final
    /\ IBKRClient.msg_queue final = []
    /\ IBKRClient._wrapper final = w'
    /\ IBKRClient.effects final
       = IBKRClient.effects self
         ++ flat_map pull_and_interpret (IBKRClient.msg_queue self)
         ++ [IBKRClient.Disconnect]
    /\ interpreted (flat_map pull_and_interpret (IBKRClient.msg_queue self))
       = map ibapi.read_fields (IBKRClient.msg_queue self).
Proof.
  destruct self as [b w q es]. cbn [IBKRClient.is_connected IBKRClient.super
    IBKRClient.msg_queue IBKRClient._wrapper IBKRClient.effects].
  intros Hconn Hfit Hdisp. unfold IBKRClient.is_connected in Hconn. cbn in Hconn.
  eexists. split.
  - replace (S (length q)) with (length q + 1)%nat by lia.
    rewrite repeat_app. rewrite <- (app_nil_r q) at 2.
    rewrite (run_dispatches_prefix q [] _ b w w' es Hfit Hdisp).
    cbn [repeat IBKRClient.run]. rewrite arrive_quiet.
    unfold IBKRClient.loop_guard. cbn [IBKRClient.super IBKRClient.msg_queue].
    rewrite Hconn. cbn. reflexivity.
  - split; [reflexivity|]. split; [reflexivity|]. split.
    + cbn. now rewrite <- app_assoc.
    + apply interpreted_pull_and_interpret.
Qed.

(** X10.  An oversized message stops the pump where it stands in the queue:
    the messages queued before it are dispatched in order, the oversized one
    is reported and not dispatched, the ones behind it are left in the queue
    undispatched, and the client disconnects, whether or not the transport
    was still up. *)
Theorem pump_stops_at_oversized_message
    (self : IBKRClient.t) (pre post : list string) (big : string)
    (later : list IBKRClient.arrival) (w' : IBKRWrapper.t) :
  IBKRClient.msg_queue self = pre ++ big :: post ->
  forallb fits pre = true ->
  fits big = false ->
  dispatch pre (IBKRClient._wrapper self) = Returned w' ->
  exists final,
    IBKRClient.run (repeat quiet_arrival (length pre) ++ quiet_arrival :: later) self
    = IBKRClient.Finished IBKRClient.LengthBreak final
    /\ IBKRClient.msg_queue final = post
    /\ IBKRClient._wrapper final = w'
    /\ IBKRClient.effects final
       = IBKRClient.effects self
         ++ flat_map pull_and_interpret pre
         ++ [IBKRClient.QueueGet 0.2 (Some big);
             IBKRClient.WrapperError ibapi.NO_VALID_ID ibapi.BAD_LENGTH_code
               (IBKRClient.bad_length_text big);
             IBKRClient.Disconnect].
Proof.
  destruct self as [b w q es]. cbn [IBKRClient.msg_queue IBKRClient._wrapper IBKRClient.effects].
  intros -> Hfit Hbig Hdisp. eexists. split.
  - rewrite (run_dispatches_prefix pre (big :: post) _ b w w' es Hfit Hdisp).
    cbn [IBKRClient.run]. rewrite arrive_quiet, loop_guard_nonempty.
    unfold IBKRClient.loop_body. cbn [IBKRClient.inbound_during_get quiet_arrival
                                       IBKRClient.msg_queue].
    rewrite app_nil_r. unfold fits in Hbig. apply negb_false_iff in Hbig. rewrite Hbig.
    reflexivity.
  - cbn. rewrite <- !app_assoc. repeat split.
Qed.

(** X11.  If the decoder raises while a message is dispatched, [run] ends with
    that exception: the messages before it were dispatched, the ones behind it
    stay in the queue, the transport is left as it was, and [disconnect] has
    not been called. *)
Theorem pump_aborts_without_cleanup
    (self : IBKRClient.t) (pre post : list string) (m : string)
    (later : list IBKRClient.arrival) (w1 w2 : IBKRWrapper.t) (e : exn) :
  IBKRClient.msg_queue self = pre ++ m :: post ->
  forallb fits pre = true ->
  fits m = true ->
  dispatch pre (IBKRClient._wrapper self) = Returned w1 ->
  ibapi.interpret (ibapi.read_fields m) w1 = Raised e w2 ->
  exists final,
    IBKRClient.run (repeat quiet_arrival (length pre) ++ quiet_arrival :: later) self
    = IBKRClient.Aborted e final
    /\ IBKRClient.cleanups final = IBKRClient.cleanups self
    /\ IBKRClient.super final = IBKRClient.super self
    /\ IBKRClient.msg_queue final = post
    /\ IBKRClient._wrapper final = w2.
Proof.
  destruct self as [b w q es]. cbn [IBKRClient.msg_queue IBKRClient._wrapper IBKRClient.super].
  intros -> Hfit Hm Hdisp Hraise. eexists. split.
  - rewrite (run_dispatches_prefix pre (m :: post) _ b w w1 es Hfit Hdisp).
    cbn [IBKRClient.run]. rewrite arrive_quiet, loop_guard_nonempty.
    unfold IBKRClient.loop_body. cbn [IBKRClient.inbound_during_get quiet_arrival
                                       IBKRClient.msg_queue].
    rewrite app_nil_r. unfold fits in Hm. apply negb_true_iff in Hm. rewrite Hm.
    cbn. rewrite Hraise. reflexivity.
  - split; [|repeat split].
    apply (cleanups_app_no_Disconnect (IBKRClient.Build_t b w (pre ++ m :: post) es) _
             (flat_map pull_and_interpret pre ++ pull_and_interpret m)).
    + cbn. now rewrite <- !app_assoc.
    + clear. rewrite no_Disconnect_app. apply andb_true_intro. split; [|reflexivity].
      induction pre as [|x pre IH]; [reflexivity|]. exact IH.
Qed.

(** X12.  While the transport is up and nothing arrives, the pump stays in
    its loop for as long as one cares to watch: each pass is one timed-out
    pull, nothing is dispatched and nothing is disconnected. *)
Theorem pump_idles_while_connected (self : IBKRClient.t) (n : nat) :
  IBKRClient.is_connected self = true ->
  IBKRClient.msg_queue self = [] ->
  IBKRClient.run (repeat quiet_arrival n) self
  = IBKRClient.Looping
      (IBKRClient.Build_t (IBKRClient.super self) (IBKRClient._wrapper self) []
         (IBKRClient.effects self ++ repeat (IBKRClient.QueueGet 0.2 None) n)).
Proof.
  destruct self as [b w q es]. cbn [IBKRClient.is_connected IBKRClient.super
    IBKRClient.msg_queue IBKRClient._wrapper IBKRClient.effects].
  intros Hconn ->. unfold IBKRClient.is_connected in Hconn. cbn in Hconn.
  revert es. induction n as [|n IH]; intros es.
  - cbn. now rewrite app_nil_r.
  - cbn [repeat IBKRClient.run]. rewrite arrive_quiet.
    unfold IBKRClient.loop_guard. cbn [IBKRClient.super]. rewrite Hconn. cbn [orb].
    unfold IBKRClient.loop_body, IBKRClient.emit. cbn. rewrite IH. now rewrite <- app_assoc.
Qed.
End PumpRunProperties.

Section PumpConservation.
Context {lib : ibapi.EClient}.

Lemma pulled_app (l1 l2 : list IBKRClient.effect) : pulled (l1 ++ l2) = pulled l1 ++ pulled l2.
Proof. apply flat_map_app. Qed.

Lemma interpreted_app (l1 l2 : list IBKRClient.effect) :
  interpreted (l1 ++ l2) = interpreted l1 ++ interpreted l2.
Proof. apply flat_map_app. Qed.

(** One pass pulls at most one message, from the head of the queue, and
    hands it to the decoder exactly when it fits. *)
Lemma loop_body_conserves (late : list string) (s : IBKRClient.t) :
  exists l,
    IBKRClient.effects (IBKRClient.body_state (IBKRClient.loop_body late s))
    = IBKRClient.effects s ++ l
    /\ no_Disconnect l = true
    /\ pulled l ++ IBKRClient.msg_queue (IBKRClient.body_state (IBKRClient.loop_body late s))
       = IBKRClient.msg_queue s ++ late
    /\ interpreted l = map ibapi.read_fields (List.filter fits (pulled l)).
Proof.
  destruct s as [b w q es]. unfold IBKRClient.loop_body. cbn [IBKRClient.msg_queue].
  destruct (q ++ late) as [|text rst] eqn:Hq.
  - exists [IBKRClient.QueueGet 0.2 None].
    apply app_eq_nil in Hq as [-> ->]. now cbn.
  - destruct (ibapi.MAX_MSG_LEN <? String.length text)%nat eqn:Hlen.
    + eexists [IBKRClient.QueueGet 0.2 (Some text); _]. cbn.
      rewrite <- app_assoc. unfold fits. rewrite Hlen. now cbn.
    + cbn zeta. destruct (ibapi.interpret _ _); exists (pull_and_interpret text);
        cbn; rewrite <- app_assoc; unfold fits; rewrite Hlen; now cbn.
Qed.

(** X13.  The pump neither loses, nor duplicates, nor reorders messages.
    Whatever the reader thread offers and however the run ends (through the
    guard, through the break, with an exception, or still looping), the
    messages pulled so far followed by those still queued are the queue at the
    start followed by an initial part of what was offered; and the decoder was
    handed exactly the pulled messages that fit, in the order pulled. *)
Theorem pump_conserves_messages (env : list IBKRClient.arrival) (self : IBKRClient.t) :
  let final := outcome_state (IBKRClient.run env self) in
  exists since offered,
    IBKRClient.effects final = IBKRClient.effects self ++ since
    /\ offered `prefix_of` all_inbound env
    /\ pulled since ++ IBKRClient.msg_queue final = IBKRClient.msg_queue self ++ offered
    /\ interpreted since = map ibapi.read_fields (List.filter fits (pulled since)).
Proof.
  cbn zeta. revert self. induction env as [|a env IH]; intros self.
  - exists [], []. cbn. now rewrite !app_nil_r.
  - cbn [IBKRClient.run all_inbound flat_map].
    set (self1 := IBKRClient.arrive a self).
    assert (IBKRClient.msg_queue self1 = IBKRClient.msg_queue self ++ IBKRClient.inbound a)
      as Hq1 by reflexivity.
    assert (IBKRClient.effects self1 = IBKRClient.effects self) as He1 by reflexivity.
    clearbody self1. destruct (IBKRClient.loop_guard self1).
    + destruct (loop_body_conserves (IBKRClient.inbound_during_get a) self1)
        as (l & Heff & _ & Hcons & Hint).
      destruct (IBKRClient.loop_body (IBKRClient.inbound_during_get a) self1)
        as [s2|s2|e s2]; cbn [IBKRClient.body_state] in *.
      * destruct (IH s2) as (since & offered & Heff' & Hpre & Hcons' & Hint').
        exists (l ++ since),
          ((IBKRClient.inbound a ++ IBKRClient.inbound_during_get a) ++ offered).
        split; [|split; [now apply prefix_app|split]].
        -- now rewrite Heff', Heff, He1, <- app_assoc.
        -- rewrite pulled_app, <- app_assoc, Hcons', app_assoc, Hcons, Hq1.
           now rewrite <- !app_assoc.
        -- now rewrite pulled_app, interpreted_app, List.filter_app, map_app, Hint, Hint'.
      * exists (l ++ [IBKRClient.Disconnect]),
          (IBKRClient.inbound a ++ IBKRClient.inbound_during_get a).
        split; [|split; [now apply prefix_app_r|split]].
        -- cbn. now rewrite Heff, He1, <- app_assoc.
        -- rewrite pulled_app. cbn. now rewrite app_nil_r, Hcons, Hq1, <- app_assoc.
        -- rewrite pulled_app, interpreted_app. cbn. now rewrite !app_nil_r.
      * exists l, (IBKRClient.inbound a ++ IBKRClient.inbound_during_get a).
        split; [|split; [now apply prefix_app_r|split]].
        -- cbn. now rewrite Heff, He1.
        -- cbn. now rewrite Hcons, Hq1, <- app_assoc.
        -- exact Hint.
    + exists [IBKRClient.Disconnect], (IBKRClient.inbound a).
      split; [|split; [|split]].
      * cbn. now rewrite He1.
      * rewrite <- app_assoc. now apply prefix_app_r.
      * cbn. now rewrite Hq1.
      * reflexivity.
Qed.
End PumpConservation.

(** ** The guarded entry points *)

Section GuardedCallProperties.
Context {lib : ibapi.EClient} {py : Builtins}.

Lemma connect_is_connected (c : IBKRClient.t) (host : string) (port client_id : Z) :
  IBKRClient.is_connected (IBKRClient.connect c host port client_id)
  = ibapi.isConnected (ibapi.connect host port client_id (IBKRClient.super c)).
Proof. reflexivity. Qed.

(** X14.  With a transport whose connect succeeds, any number of guarded
    calls in a row start at most one pump thread and open at most one
    transport: one if the client was not connected at the first call, none
    if it was. *)
Theorem repeated_guarded_calls_start_one_pump
    (n : nat) (host : string) (port client_id : Z) (c : IBKRClient.t) :
  (forall h p i b, ibapi.isConnected (ibapi.connect h p i b) = true) ->
  let started := if IBKRClient.is_connected c || (n =? 0)%nat then 0%nat else 1%nat in
  IBKRClient.pump_threads (ensure_repeatedly n host port client_id c)
  = (IBKRClient.pump_threads c + started)%nat
  /\ IBKRClient.transports_opened (ensure_repeatedly n host port client_id c)
     = (IBKRClient.transports_opened c + started)%nat.
Proof.
  intros Hok. cbn zeta. unfold ensure_repeatedly.
  assert (forall m c', IBKRClient.is_connected c' = true ->
            Nat.iter m (server.ensure_ibkr_connection (fun c => c) host port client_id) c'
            = c') as Hfix.
  { intros m c' Hc'. induction m as [|m IH]; [reflexivity|].
    rewrite Nat.iter_succ, IH. unfold server.ensure_ibkr_connection. now rewrite Hc'. }
  destruct n as [|n].
  - cbn. rewrite orb_true_r. split; lia.
  - rewrite Nat.iter_succ_r. cbn [Nat.eqb]. rewrite orb_false_r.
    destruct (IBKRClient.is_connected c) eqn:Hc.
    + assert (server.ensure_ibkr_connection (fun c => c) host port client_id c = c) as ->
        by (unfold server.ensure_ibkr_connection; now rewrite Hc).
      rewrite (Hfix n c Hc). split; lia.
    + assert (server.ensure_ibkr_connection (fun c => c) host port client_id c
              = IBKRClient.connect c host port client_id) as ->
        by (unfold server.ensure_ibkr_connection; now rewrite Hc).
      rewrite Hfix by (rewrite connect_is_connected; apply Hok).
      destruct (connect_counts c host port client_id) as [-> ->]. split; lia.
Qed.

(** X15.  [connect] does not look at whether the transport came up.  With a
    transport whose connect leaves the client not connected, each guarded call
    opens another transport and starts another pump thread. *)
Theorem failed_connects_pile_up
    (n : nat) (host : string) (port client_id : Z) (c : IBKRClient.t) :
  (forall h p i b, ibapi.isConnected (ibapi.connect h p i b) = false) ->
  IBKRClient.is_connected c = false ->
  IBKRClient.pump_threads (ensure_repeatedly n host port client_id c)
  = (IBKRClient.pump_threads c + n)%nat
  /\ IBKRClient.transports_opened (ensure_repeatedly n host port client_id c)
     = (IBKRClient.transports_opened c + n)%nat
  /\ IBKRClient.is_connected (ensure_repeatedly n host port client_id c) = false.
Proof.
  intros Hfail Hc. unfold ensure_repeatedly. induction n as [|n IH].
  - cbn. repeat split; [lia|lia|exact Hc].
  - rewrite Nat.iter_succ. destruct IH as (Hth & Htr & Hconn).
    set (x := Nat.iter n _ c) in *.
    assert (server.ensure_ibkr_connection (fun c => c) host port client_id x
            = IBKRClient.connect x host port client_id) as ->
      by (unfold server.ensure_ibkr_connection; now rewrite Hconn).
    destruct (connect_counts x host port client_id) as [-> ->].
    rewrite Hth, Htr, connect_is_connected, Hfail. repeat split; lia.
Qed.

End GuardedCallProperties.

(** ** The further properties on concrete clients *)

Lemma positions_stay_distinct_witness :
  NoDup (map Position.key
           (IBKRWrapper.positions
              (IBKRWrapper.deliver_all (py := Concrete.builtins)
                 IBKRWrapper.__init__ Scenario.two_deliveries_for_one_key))).
Proof.
  apply (positions_stay_distinct (py := Concrete.builtins)
           IBKRWrapper.__init__ Scenario.two_deliveries_for_one_key).
  unfold set_wf. cbn. constructor.
Defined.

Lemma get_positions_keeps_stale_entry_witness :
  exists after s value tr,
    IBKRClient.get_positions (py := Concrete.builtins)
      Illustration.second_cycle Illustration.client_after_first_cycle
    = (after, IBKRWrapper.Resumed s value tr)
    /\ value = [Illustration.first_position]
    /\ (forall q, In q value ->
          Position.key q = Position.key Illustration.first_position ->
          q = Illustration.first_position).
Proof.
  eexists _, _, _, _. split; [vm_compute; reflexivity|]. split; [reflexivity|].
  eapply (get_positions_keeps_stale_entry (py := Concrete.builtins) (lib := Scenario.library)
            Illustration.second_cycle Illustration.client_after_first_cycle
            _ Illustration.first_position).
  - unfold set_wf. cbn. constructor; [intros Hin; inversion Hin|constructor].
  - cbn. now left.
  - vm_compute. reflexivity.
Defined.

Lemma requests_compose_witness :
  IBKRWrapper.initiate_market_data_request
    (IBKRWrapper.initiate_market_data_request IBKRWrapper.__init__
       42 (Concrete.contract_of 7)) 43 (Concrete.contract_of 9)
  = IBKRWrapper.initiate_market_data_request
      (IBKRWrapper.initiate_market_data_request IBKRWrapper.__init__
         43 (Concrete.contract_of 9)) 42 (Concrete.contract_of 7).
Proof.
  apply (proj1 (requests_compose IBKRWrapper.__init__ 42 43
                  (Concrete.contract_of 7) (Concrete.contract_of 9))).
  discriminate.
Defined.

Lemma sent_subscriptions_resolve_witness :
  let c := apply_ops (lib := Scenario.library) (names := Concrete.tick_names)
             (py := Concrete.builtins)
             (IBKRClient.__init__ (lib := Scenario.library) Concrete.Disconnected)
             Illustration.two_requests in
  In (IBKRClient.ReqMktData 42 (Concrete.contract_of 7) EmptyString false false)
     (IBKRClient.effects c)
  /\ is_Some (IBKRWrapper.market_data_request_ids (IBKRClient._wrapper c) !! 42)
  /\ is_Some (IBKRClient.get_market_data c (Concrete.contract_of 7)).
Proof.
  cbn zeta.
  assert (In (IBKRClient.ReqMktData 42 (Concrete.contract_of 7) EmptyString false false)
            (IBKRClient.effects
               (apply_ops (lib := Scenario.library) (names := Concrete.tick_names)
                  (py := Concrete.builtins)
                  (IBKRClient.__init__ (lib := Scenario.library) Concrete.Disconnected)
                  Illustration.two_requests))) as Hin
    by (cbn; right; left; reflexivity).
  split; [exact Hin|].
  destruct (sent_subscriptions_resolve (lib := Scenario.library)
              (names := Concrete.tick_names) (py := Concrete.builtins)
              Concrete.Disconnected Illustration.two_requests
              42 (Concrete.contract_of 7) EmptyString false false Hin)
    as (Hid & Hrecord & _).
  split; [exact Hid|exact Hrecord].
Defined.

Lemma pump_drains_queue_after_disconnect_witness :
  exists final,
    IBKRClient.run (lib := Scenario.library) (repeat quiet_arrival 3)
      (Illustration.client_with_backlog ["positionEnd"; "hello gateway"])
    = IBKRClient.Finished IBKRClient.GuardExhausted final
    /\ IBKRClient.msg_queue final = []
    /\ interpreted (IBKRClient.effects final) = [["positionEnd"]; ["hello"; "gateway"]].
Proof.
  destruct (pump_drains_queue_after_disconnect (lib := Scenario.library)
              (Illustration.client_with_backlog ["positionEnd"; "hello gateway"])
              (IBKRWrapper.positionEnd IBKRWrapper.__init__))
    as (final & Hrun & Hqueue & _ & Heff & _).
  - reflexivity.
  - reflexivity.
  - reflexivity.
  - exists final. split; [exact Hrun|]. split; [exact Hqueue|].
    rewrite Heff. vm_compute. reflexivity.
Defined.

Lemma pump_stops_at_oversized_message_witness :
  exists final,
    IBKRClient.run (lib := Scenario.library)
      (repeat quiet_arrival 1 ++ quiet_arrival :: [])
      (Illustration.client_with_backlog
         ["positionEnd"; "a message far longer than sixteen characters"; "positionEnd"])
    = IBKRClient.Finished IBKRClient.LengthBreak final
    /\ IBKRClient.msg_queue final = ["positionEnd"]
    /\ interpreted (IBKRClient.effects final) = [["positionEnd"]].
Proof.
  destruct (pump_stops_at_oversized_message (lib := Scenario.library)
              (Illustration.client_with_backlog
                 ["positionEnd"; "a message far longer than sixteen characters"; "positionEnd"])
              ["positionEnd"] ["positionEnd"]
              "a message far longer than sixteen characters" []
              (IBKRWrapper.positionEnd IBKRWrapper.__init__))
    as (final & Hrun & Hqueue & _ & Heff).
  - reflexivity.
  - reflexivity.
  - reflexivity.
  - reflexivity.
  - exists final. split; [exact Hrun|]. split; [exact Hqueue|].
    rewrite Heff. vm_compute. reflexivity.
Defined.


Lemma pump_aborts_without_cleanup_witness :
  exists final,
    IBKRClient.run (lib := Illustration.ticking)
      (repeat quiet_arrival 1 ++ quiet_arrival :: [])
      (Illustration.ticking_client ["positionEnd"; "tickPrice"; "positionEnd"])
    = IBKRClient.Aborted (AttributeError "_market_data_request_ids") final
    /\ IBKRClient.cleanups final = 0%nat
    /\ IBKRClient.is_connected final = true
    /\ IBKRClient.msg_queue final = ["positionEnd"].
Proof.
  destruct (pump_aborts_without_cleanup (lib := Illustration.ticking)
              (Illustration.ticking_client ["positionEnd"; "tickPrice"; "positionEnd"])
              ["positionEnd"] ["positionEnd"] "tickPrice" []
              (IBKRWrapper.positionEnd IBKRWrapper.__init__)
              (IBKRWrapper.positionEnd IBKRWrapper.__init__)
              (AttributeError "_market_data_request_ids"))
    as (final & Hrun & Hclean & Hsuper & Hqueue & _).
  - reflexivity.
  - reflexivity.
  - reflexivity.
  - reflexivity.
  - reflexivity.
  - exists final. split; [exact Hrun|]. split; [rewrite Hclean; reflexivity|].
    split; [|exact Hqueue]. unfold IBKRClient.is_connected. rewrite Hsuper. reflexivity.
Defined.

Lemma pump_idles_while_connected_witness :
  exists still,
    IBKRClient.run (lib := Scenario.library) (repeat quiet_arrival 3)
      Scenario.connected_client
    = IBKRClient.Looping still
    /\ IBKRClient.cleanups still = 0%nat
    /\ interpreted (IBKRClient.effects still) = [].
Proof.
  eexists. split.
  - apply (pump_idles_while_connected (lib := Scenario.library)
             Scenario.connected_client 3); reflexivity.
  - split; reflexivity.
Defined.

Lemma repeated_guarded_calls_start_one_pump_witness :
  IBKRClient.pump_threads
    (ensure_repeatedly (lib := Illustration.handshaking) 3 "localhost" 4001 7
       (IBKRClient.__init__ (lib := Illustration.handshaking) Concrete.Disconnected))
  = 1%nat.
Proof.
  apply (proj1 (repeated_guarded_calls_start_one_pump (lib := Illustration.handshaking)
                  3 "localhost" 4001 7
                  (IBKRClient.__init__ (lib := Illustration.handshaking)
                     Concrete.Disconnected)
                  (fun _ _ _ _ => eq_refl))).
Defined.

Lemma failed_connects_pile_up_witness :
  IBKRClient.pump_threads
    (ensure_repeatedly (lib := Scenario.library) 3 "localhost" 4001 7
       (IBKRClient.__init__ (lib := Scenario.library) Concrete.Disconnected))
  = 3%nat.
Proof.
  apply (proj1 (failed_connects_pile_up (lib := Scenario.library)
                  3 "localhost" 4001 7
                  (IBKRClient.__init__ (lib := Scenario.library) Concrete.Disconnected)
                  (fun _ _ _ _ => eq_refl) eq_refl)).
Defined.

